(** * plant_water: scheduling and actuation engine of the two-pump controller

    Shallow embedding of [src/main/plant_water.c].  The program is a set of
    C functions that share global state (the cron table, its write cursor,
    two FreeRTOS queues and the LEDC PWM outputs that drive the pumps).
    The globals are gathered in one record, [world], and every C function
    becomes a computation in a state monad over it.  Calls into FreeRTOS
    and the LEDC driver additionally leave an event in [trace], so that
    statements such as "one send was issued" or "the pumps were switched
    off after the delay" can be made about what the code did and in which
    order. *)

From Stdlib Require Import ZArith String Lia Bool.
From stdpp Require Import base tactics list.

Local Open Scope Z_scope.

(** ** Build configuration

    [plant_water.h] and the FreeRTOS configuration are not part of the
    sources at hand; the three constants the code takes from them are the
    fields of this class. *)

Class Config : Type := {
  LEDC_DUTY : Z;            (* duty written for a running pump *)
  portTICK_PERIOD_MS : Z;   (* milliseconds per scheduler tick *)
  PUMP_EV_NUM : Z           (* length of both queues *)
}.

(** ** Data *)

Definition MAX_CRON_SPECS : Z := 5.

(* typedef enum { PUMP_ON = 1, PUMP_OFF = 2 } event_type;  a C enum is an
   int, and [struct event_t message = {0}] stores 0 in it. *)
Definition event_type : Type := Z.
Definition PUMP_ON : event_type := 1.
Definition PUMP_OFF : event_type := 2.

Record event_t : Type := mk_event {
  pump_1 : event_type;
  pump_2 : event_type;
  pump_delay : Z
}.

Record cron_t : Type := mk_cron {
  pump_num : Z;
  state : Z;
  pump_on_time : Z;
  hour : Z;
  minute : Z;
  last_ran_day : Z;      (* day of the month it last ran *)
  last_ran_minute : Z;   (* minute it last ran *)
  last_ran_hour : Z      (* hour it last ran *)
}.

(* struct cron_t cron_spec = {0}; *)
Definition cron_zero : cron_t := mk_cron 0 0 0 0 0 0 0 0.

(* struct event_t message = {0}; *)
Definition event_zero : event_t := mk_event 0 0 0.

(* The fields of [struct tm] that fix the minute of the day and the
   calendar date.  The code reads tm_hour, tm_min and tm_mday only. *)
Record tm : Type := mk_tm {
  tm_min : Z;
  tm_hour : Z;
  tm_mday : Z;   (* day of the month, 1..31 *)
  tm_mon : Z;    (* months since January, 0..11 *)
  tm_year : Z    (* years since 1900 *)
}.

(** A cJSON tree as the handlers see it.  Of a number node the code reads
    [valueint] only, so that is what a number carries. *)
#[warnings="-register-all"]
Inductive cJSON : Type :=
| cJSON_Null
| cJSON_Bool (b : bool)
| cJSON_Number (valueint : Z)
| cJSON_String (valuestring : string)
| cJSON_Array (items : list cJSON)
| cJSON_Object (members : list (string * cJSON)).

(** Calls that leave the program: queue operations, PWM writes, sleeps. *)
Inductive io_event : Type :=
| Send_pumpEvents (m : event_t) (accepted : bool)
| Send_timerEvents (c : cron_t) (accepted : bool)
| Receive_pumpEvents (r : option event_t)
| Receive_timerEvents (r : option cron_t)
| Ledc_duty (channel duty : Z)
| Task_delay (ticks : Z).

(** The globals.  [pumpEvents] and [timerEvents] hold the contents of the
    two queues, oldest element first; [ledc] is the duty applied on each
    LEDC channel. *)
Record world : Type := mk_world {
  cron_specs : list cron_t;
  next_cron_spec : Z;
  pumpEvents : list event_t;
  timerEvents : list cron_t;
  ledc : Z -> Z;
  trace : list io_event
}.

(* State at the end of app_main: the static table is zero-filled, both
   queues were just created, ledc_init configured both channels with
   duty 0. *)
Definition world_init : world :=
  mk_world (replicate (Z.to_nat MAX_CRON_SPECS) cron_zero) 0 [] [] (fun _ => 0) [].

(** ** The state monad *)

Definition M (A : Type) : Type := world -> A * world.

Definition ret {A} (a : A) : M A := fun w => (a, w).

Definition bind {A B} (c : M A) (k : A -> M B) : M B :=
  fun w => let (a, w') := c w in k a w'.

Definition exec {A} (c : M A) (w : world) : world := snd (c w).
Definition eval {A} (c : M A) (w : world) : A := fst (c w).

Declare Scope cmd_scope.
Delimit Scope cmd_scope with cmd.
Notation "x <- c1 ;; c2" := (bind c1 (fun x => c2))
  (at level 100, c1 at next level, right associativity) : cmd_scope.
Notation "c1 ;; c2" := (bind c1 (fun _ => c2))
  (at level 100, right associativity) : cmd_scope.
Local Open Scope cmd_scope.

Definition emit (e : io_event) : M unit :=
  fun w => (tt, mk_world (cron_specs w) (next_cron_spec w) (pumpEvents w)
                         (timerEvents w) (ledc w) (trace w ++ [e])).

(* for (int i = start; i < start + n; i++) body(i); *)
Fixpoint for_loop (i : Z) (n : nat) (body : Z -> M unit) : M unit :=
  match n with
  | O => ret tt
  | S n' => body i ;; for_loop (i + 1) n' body
  end.

(** ** C integer conversions *)

(* int <- wider value, two's complement *)
Definition to_int (z : Z) : Z := (z + 2 ^ 31) mod 2 ^ 32 - 2 ^ 31.

(* TickType_t is uint32_t on this target *)
Definition to_TickType (z : Z) : Z := z mod 2 ^ 32.

Section Program.
Context {cfg : Config}.

(** ** FreeRTOS queues and the LEDC driver

    app_main creates both queues and asserts their handles before it
    starts the timer and the runner task, so the NULL tests on the handles
    (lines 164 and 218) always pass and are not modelled. *)

(* xQueueSend(pumpEventsHandle, &m, 0): never waits; a full queue rejects
   the item.  The callers ignore the result. *)
Definition xQueueSend_pumpEvents (m : event_t) : M bool :=
  fun w =>
    if Z.of_nat (length (pumpEvents w)) <? PUMP_EV_NUM
    then (true, mk_world (cron_specs w) (next_cron_spec w) (pumpEvents w ++ [m])
                         (timerEvents w) (ledc w)
                         (trace w ++ [Send_pumpEvents m true]))
    else (false, mk_world (cron_specs w) (next_cron_spec w) (pumpEvents w)
                          (timerEvents w) (ledc w)
                          (trace w ++ [Send_pumpEvents m false])).

(* xQueueSend(timerEventsHandle, &c, 0) *)
Definition xQueueSend_timerEvents (c : cron_t) : M bool :=
  fun w =>
    if Z.of_nat (length (timerEvents w)) <? PUMP_EV_NUM
    then (true, mk_world (cron_specs w) (next_cron_spec w) (pumpEvents w)
                         (timerEvents w ++ [c]) (ledc w)
                         (trace w ++ [Send_timerEvents c true]))
    else (false, mk_world (cron_specs w) (next_cron_spec w) (pumpEvents w)
                          (timerEvents w) (ledc w)
                          (trace w ++ [Send_timerEvents c false])).

End Program.

(* xQueueReceive(pumpEventsHandle, &m, PUMP_TIMER_DELAY): [None] is the
   time-out on an empty queue. *)
Definition xQueueReceive_pumpEvents : M (option event_t) :=
  fun w =>
    match pumpEvents w with
    | [] => (None, mk_world (cron_specs w) (next_cron_spec w) [] (timerEvents w)
                            (ledc w) (trace w ++ [Receive_pumpEvents None]))
    | m :: rest =>
        (Some m, mk_world (cron_specs w) (next_cron_spec w) rest (timerEvents w)
                          (ledc w) (trace w ++ [Receive_pumpEvents (Some m)]))
    end.

(* xQueueReceive(timerEventsHandle, &c, 0) *)
Definition xQueueReceive_timerEvents : M (option cron_t) :=
  fun w =>
    match timerEvents w with
    | [] => (None, mk_world (cron_specs w) (next_cron_spec w) (pumpEvents w) []
                            (ledc w) (trace w ++ [Receive_timerEvents None]))
    | c :: rest =>
        (Some c, mk_world (cron_specs w) (next_cron_spec w) (pumpEvents w) rest
                          (ledc w) (trace w ++ [Receive_timerEvents (Some c)]))
    end.

(* ledc_set_duty(LEDC_MODE, channel, duty); ledc_update_duty(LEDC_MODE, channel); *)
Definition ledc_set_and_update_duty (channel duty : Z) : M unit :=
  fun w =>
    (tt, mk_world (cron_specs w) (next_cron_spec w) (pumpEvents w) (timerEvents w)
                  (fun c => if c =? channel then duty else ledc w c)
                  (trace w ++ [Ledc_duty channel duty])).

Definition vTaskDelay (ticks : Z) : M unit := emit (Task_delay ticks).

(* cron_specs[i], read and written as a whole struct *)
Definition load_cron_spec (i : Z) : M cron_t :=
  fun w => (nth (Z.to_nat i) (cron_specs w) cron_zero, w).

Definition store_cron_spec (i : Z) (c : cron_t) : M unit :=
  fun w =>
    (tt, mk_world (<[Z.to_nat i := c]> (cron_specs w)) (next_cron_spec w)
                  (pumpEvents w) (timerEvents w) (ledc w) (trace w)).

Definition load_next_cron_spec : M Z := fun w => (next_cron_spec w, w).

Definition store_next_cron_spec (n : Z) : M unit :=
  fun w =>
    (tt, mk_world (cron_specs w) n (pumpEvents w) (timerEvents w) (ledc w) (trace w)).

(** ** cJSON accessors (a NULL pointer is [None]) *)

Definition cJSON_IsObject (item : option cJSON) : bool :=
  match item with Some (cJSON_Object _) => true | _ => false end.

Definition cJSON_IsNumber (item : option cJSON) : bool :=
  match item with Some (cJSON_Number _) => true | _ => false end.

(* item->valueint; only read after cJSON_IsNumber(item) *)
Definition valueint_of (item : option cJSON) : Z :=
  match item with Some (cJSON_Number v) => v | _ => 0 end.

(* first member whose name is exactly [name] *)
Fixpoint get_member (members : list (string * cJSON)) (name : string) : option cJSON :=
  match members with
  | [] => None
  | (k, v) :: rest => if String.eqb k name then Some v else get_member rest name
  end.

Definition cJSON_GetObjectItemCaseSensitive (object : option cJSON) (name : string)
  : option cJSON :=
  match object with
  | Some (cJSON_Object members) => get_member members name
  | _ => None
  end.

Definition esp_err_t : Type := Z.
Definition ESP_OK : esp_err_t := 0.
Definition ESP_FAIL : esp_err_t := -1.

Section Code.
Context {cfg : Config}.

(** ** Pumps (lines 15-38) *)

Definition set_pump (pump_num state : Z) : M unit :=
  ledc_set_and_update_duty pump_num (if state =? 1 then LEDC_DUTY else 0).

Definition pump_one_on : M unit := set_pump 0 1 ;; set_pump 1 0.

Definition pump_two_on : M unit := set_pump 0 0 ;; set_pump 1 1.

Definition pumps_off : M unit := set_pump 0 0 ;; set_pump 1 0.

(** ** parse_cron_data (lines 88-125) *)

Definition parse_cron_data (json : cJSON) : cron_t :=
  if cJSON_IsObject (Some json) then
    let pump_num := cJSON_GetObjectItemCaseSensitive (Some json) "pump_num" in
    let state := cJSON_GetObjectItemCaseSensitive (Some json) "state" in
    let pump_on_time := cJSON_GetObjectItemCaseSensitive (Some json) "pump_on_time" in
    let hour := cJSON_GetObjectItemCaseSensitive (Some json) "hour" in
    let minute := cJSON_GetObjectItemCaseSensitive (Some json) "minute" in
    if cJSON_IsNumber pump_num && cJSON_IsNumber state && cJSON_IsNumber pump_on_time
       && cJSON_IsNumber hour && cJSON_IsNumber minute
    then mk_cron (valueint_of pump_num) (valueint_of state) (valueint_of pump_on_time)
                 (valueint_of hour) (valueint_of minute) (-1) (-1) (-1)
    else cron_zero
  else cron_zero.

(** ** make_delay (lines 127-130)

    [1000*seconds] is an int (a product that does not fit is taken to
    wrap around); dividing by the unsigned portTICK_PERIOD_MS converts it
    to TickType_t first. *)
Definition make_delay (seconds : Z) : Z :=
  to_TickType (to_int (1000 * seconds)) / portTICK_PERIOD_MS.

(** ** The pump runner task (lines 153-179) *)

(* lines 168-173: drive the pumps as the message says *)
Definition drive_pumps (pumpMessage : event_t) : M unit :=
  (if pump_1 pumpMessage =? PUMP_ON then pump_one_on else ret tt) ;;
  (if pump_2 pumpMessage =? PUMP_ON then pump_two_on else ret tt).

(* lines 167-175: what is done with a received message *)
Definition run_message (pumpMessage : event_t) : M unit :=
  drive_pumps pumpMessage ;;
  vTaskDelay (to_TickType (pump_delay pumpMessage)) ;;
  pumps_off.

(* one turn of the while (1) loop *)
Definition pumpRunner_turn : M unit :=
  vTaskDelay (2000 / portTICK_PERIOD_MS) ;;
  r <- xQueueReceive_pumpEvents ;;
  match r with
  | Some pumpMessage => run_message pumpMessage
  | None => ret tt
  end.

(* the first [turns] turns of the endless loop *)
Fixpoint pumpRunnerTaskFunction (turns : nat) : M unit :=
  match turns with
  | O => ret tt
  | S n => pumpRunner_turn ;; pumpRunnerTaskFunction n
  end.

(** ** runPumps (lines 193-207) *)

Definition runPumps (delay1 delay2 : Z) : M unit :=
  xQueueSend_pumpEvents (mk_event PUMP_ON PUMP_OFF (to_int (make_delay delay1))) ;;
  xQueueSend_pumpEvents (mk_event PUMP_OFF PUMP_ON (to_int (make_delay delay2))) ;;
  ret tt.

(** ** The timer callback (lines 209-258) *)

(* lines 218-225: take at most one new cron spec from the queue *)
Definition cron_update : M unit :=
  r <- xQueueReceive_timerEvents ;;
  match r with
  | Some pump_timer_config =>
      n <- load_next_cron_spec ;;
      store_cron_spec n pump_timer_config ;;
      store_next_cron_spec (Z.rem (n + 1) MAX_CRON_SPECS)
  | None => ret tt
  end.

(* lines 239-250: the message built for a cron spec that is due *)
Definition cron_message (c : cron_t) : event_t :=
  let message := event_zero in
  let message :=
    if pump_num c =? 0 then mk_event PUMP_ON PUMP_OFF (pump_delay message)
    else if pump_num c =? 1 then mk_event PUMP_OFF PUMP_ON (pump_delay message)
    else message in
  mk_event (pump_1 message) (pump_2 message) (to_int (make_delay (pump_on_time c))).

(* lines 253-255 *)
Definition mark_ran (timeinfo : tm) (c : cron_t) : cron_t :=
  mk_cron (pump_num c) (state c) (pump_on_time c) (hour c) (minute c)
          (tm_mday timeinfo) (tm_min timeinfo) (tm_hour timeinfo).

(* lines 230-256: the body of the for loop *)
Definition cron_check (timeinfo : tm) (i : Z) : M unit :=
  c <- load_cron_spec i ;;
  if (tm_hour timeinfo =? hour c) && (tm_min timeinfo =? minute c) then
    if last_ran_day c =? tm_mday timeinfo then
      ret tt  (* it already ran today, skip it *)
    else
      xQueueSend_pumpEvents (cron_message c) ;;
      store_cron_spec i (mark_ran timeinfo c)
  else ret tt.

(* lines 229-257 *)
Definition cron_scan (timeinfo : tm) : M unit :=
  for_loop 0 (Z.to_nat MAX_CRON_SPECS) (cron_check timeinfo).

(* [timeinfo] is what time() and localtime_r() deliver when the callback runs *)
Definition pumpTimerCb (timeinfo : tm) : M unit :=
  cron_update ;; cron_scan timeinfo.

(** ** HTTP handlers

    [recv_ret] is the result of httpd_req_recv and [json] the result of
    cJSON_ParseWithLength on the received body ([None] for NULL). *)

(* lines 293-336 *)
Definition pumps_on_handler (recv_ret : Z) (json : option cJSON) : M esp_err_t :=
  if recv_ret <? 0 then ret ESP_FAIL
  else
    (match json with
     | Some _ =>
         if cJSON_IsObject json then
           let pump_one_time_j := cJSON_GetObjectItemCaseSensitive json "pump_1" in
           let pump_two_time_j := cJSON_GetObjectItemCaseSensitive json "pump_2" in
           if cJSON_IsNumber pump_one_time_j && cJSON_IsNumber pump_two_time_j then
             if (valueint_of pump_one_time_j >? 0) && (valueint_of pump_two_time_j >? 0)
             then runPumps (valueint_of pump_one_time_j) (valueint_of pump_two_time_j)
             else ret tt
           else ret tt
         else ret tt
     | None => ret tt
     end) ;;
    ret ESP_OK.

(* lines 354-388 *)
Definition add_cron_handler (recv_ret : Z) (json : option cJSON) : M esp_err_t :=
  if recv_ret <? 0 then ret ESP_FAIL
  else
    (match json with
     | Some j =>
         let cron_spec := parse_cron_data j in
         xQueueSend_timerEvents cron_spec ;; ret tt
     | None => ret tt
     end) ;;
    ret ESP_OK.

End Code.

(** ** Vocabulary of the statements *)

(* The table has its five slots and the cursor points at one of them. *)
Definition world_ok (w : world) : Prop :=
  length (cron_specs w) = Z.to_nat MAX_CRON_SPECS /\
  0 <= next_cron_spec w < MAX_CRON_SPECS.

(* The two tests of lines 232-233 taken together: the loop body sends a
   message for [c] exactly when this holds. *)
Definition cron_due (timeinfo : tm) (c : cron_t) : bool :=
  (tm_hour timeinfo =? hour c) && (tm_min timeinfo =? minute c)
  && negb (last_ran_day c =? tm_mday timeinfo).

(* What one pass of the loop body leaves in a slot holding [c]. *)
Definition scan_entry (timeinfo : tm) (c : cron_t) : cron_t :=
  if cron_due timeinfo c then mark_ran timeinfo c else c.

(* The due entries of a table, each with the index of its slot, in index
   order; [a] is the index of the first element of [l]. *)
Fixpoint due_from (timeinfo : tm) (a : nat) (l : list cron_t) : list (nat * cron_t) :=
  match l with
  | [] => []
  | c :: l' =>
      (if cron_due timeinfo c then [(a, c)] else []) ++ due_from timeinfo (S a) l'
  end.

Definition due_entries (timeinfo : tm) (specs : list cron_t) : list (nat * cron_t) :=
  due_from timeinfo 0 specs.

(* the entries of [l] that come from slot [i] *)
Definition from_slot (i : nat) (l : list (nat * cron_t)) : list (nat * cron_t) :=
  filter (fun p => p.1 = i) l.

(* Two entries describe the same schedule: they agree on what was
   submitted, whatever their last-ran fields say. *)
Definition same_schedule (a b : cron_t) : Prop :=
  pump_num a = pump_num b /\ state a = state b /\
  pump_on_time a = pump_on_time b /\ hour a = hour b /\ minute a = minute b.

(* calendar date of a broken-down time: year, month, day of the month *)
Definition date_of (timeinfo : tm) : Z * Z * Z :=
  (tm_year timeinfo, tm_mon timeinfo, tm_mday timeinfo).

(** The matching rule as the specification words it, for comparison with
    [cron_due]: "entry matches if entry.hour == now.hour && entry.minute ==
    now.minute && entry.last_run_date != now.date", where the last-run date
    is an optional calendar day.  The code keeps no such date; here it is
    handed in. *)
Definition spec_entry_matches (now : tm) (c : cron_t) (last_run_date : option (Z * Z * Z))
  : bool :=
  (hour c =? tm_hour now) && (minute c =? tm_min now)
  && negb (bool_decide (last_run_date = Some (date_of now))).

(* sends to the run-request queue recorded in a stretch of the trace *)
Definition pump_sends (evs : list io_event) : list event_t :=
  omap (fun e => match e with Send_pumpEvents m _ => Some m | _ => None end) evs.

Definition is_timer_receive (e : io_event) : bool :=
  match e with Receive_timerEvents _ => true | _ => false end.

(** The pump outputs along a trace: the pair of duties on channels 0 and
    1, replayed from the LEDC writes. *)
Definition duty_step (s : Z * Z) (e : io_event) : Z * Z :=
  match e with
  | Ledc_duty channel duty =>
      if channel =? 0 then (duty, s.2)
      else if channel =? 1 then (s.1, duty)
      else s
  | _ => s
  end.

Definition duties_after (evs : list io_event) (s : Z * Z) : Z * Z :=
  fold_left duty_step evs s.

(* the outputs after each event of [evs] in turn *)
Fixpoint duties_along (evs : list io_event) (s : Z * Z) : list (Z * Z) :=
  match evs with
  | [] => []
  | e :: evs' => duty_step s e :: duties_along evs' (duty_step s e)
  end.

Definition is_ledc_event (e : io_event) : bool :=
  match e with Ledc_duty _ _ => true | _ => false end.

(* a pump runs when the duty on its channel is not zero *)
Definition at_most_one_on (s : Z * Z) : Prop := s.1 = 0 \/ s.2 = 0.

Section Runs.
Context {cfg : Config}.

(* a non-blocking send seen from the queue: room left, and the contents
   afterwards *)
Definition has_room {A} (q : list A) : bool := Z.of_nat (length q) <? PUMP_EV_NUM.

Definition enqueue {A} (q : list A) (x : A) : list A :=
  if has_room q then q ++ [x] else q.

(* the events of sending [msgs] one after the other to a queue holding [q] *)
Fixpoint send_events (q : list event_t) (msgs : list event_t) : list io_event :=
  match msgs with
  | [] => []
  | m :: rest => Send_pumpEvents m (has_room q) :: send_events (enqueue q m) rest
  end.

(* the (slot, entry) pairs for which a callback at [timeinfo] sends a
   message: the due entries of the table as the update step leaves it *)
Definition tick_requests (timeinfo : tm) (w : world) : list (nat * cron_t) :=
  due_entries timeinfo (cron_specs (exec cron_update w)).

(* successive runs of the timer callback *)
Fixpoint run_ticks (times : list tm) : M unit :=
  match times with
  | [] => ret tt
  | timeinfo :: rest => pumpTimerCb timeinfo ;; run_ticks rest
  end.

(* a schedule entry is put on the queue and the callback runs once *)
Definition submit_and_tick (c : cron_t) (timeinfo : tm) : M unit :=
  xQueueSend_timerEvents c ;; pumpTimerCb timeinfo.

(** What the running system does, one atomic piece at a time. *)
Inductive action : Type :=
| Timer_callback (timeinfo : tm)
| Post_pumps_on (recv_ret : Z) (json : option cJSON)
| Post_add_cron (recv_ret : Z) (json : option cJSON)
| Runner_turn.

Definition run_action (a : action) : M unit :=
  match a with
  | Timer_callback timeinfo => pumpTimerCb timeinfo
  | Post_pumps_on recv_ret json => pumps_on_handler recv_ret json ;; ret tt
  | Post_add_cron recv_ret json => add_cron_handler recv_ret json ;; ret tt
  | Runner_turn => pumpRunner_turn
  end.

Fixpoint run_actions (l : list action) : M unit :=
  match l with
  | [] => ret tt
  | a :: rest => run_action a ;; run_actions rest
  end.

(* the LEDC writes of [drive_pumps] *)
Definition drive_events (m : event_t) : list io_event :=
  (if pump_1 m =? PUMP_ON then [Ledc_duty 0 LEDC_DUTY; Ledc_duty 1 0] else []) ++
  (if pump_2 m =? PUMP_ON then [Ledc_duty 0 0; Ledc_duty 1 LEDC_DUTY] else []).

(* everything [run_message] does, in order: drive, hold, switch off *)
Definition run_message_events (m : event_t) : list io_event :=
  drive_events m ++
  [Task_delay (to_TickType (pump_delay m)); Ledc_duty 0 0; Ledc_duty 1 0].

(* Holds whenever no message is being served: the table is in shape, both
   outputs are off, they are what the trace says, and never along the
   trace were both pumps running. *)
Definition pumps_idle (w : world) : Prop :=
  world_ok w /\
  ledc w 0 = 0 /\ ledc w 1 = 0 /\
  duties_after (trace w) (0, 0) = (0, 0) /\
  Forall at_most_one_on (duties_along (trace w) (0, 0)).

(* the fields parse_cron_data asks for *)
Definition cron_fields : list string :=
  ["pump_num"; "state"; "pump_on_time"; "hour"; "minute"]%string.

(* a body parse_cron_data turns down: not an object, or one of the five
   fields is missing or not a number *)
Definition cron_json_invalid (json : cJSON) : Prop :=
  cJSON_IsObject (Some json) = false \/
  exists name : string,
    In name cron_fields /\
    cJSON_IsNumber (cJSON_GetObjectItemCaseSensitive (Some json) name) = false.

(* the two messages of runPumps *)
Definition run_first (delay1 : Z) : event_t :=
  mk_event PUMP_ON PUMP_OFF (to_int (make_delay delay1)).
Definition run_second (delay2 : Z) : event_t :=
  mk_event PUMP_OFF PUMP_ON (to_int (make_delay delay2)).

(* one submission after the other, the callback running after each *)
Fixpoint submit_all (l : list (cron_t * tm)) : M unit :=
  match l with
  | [] => ret tt
  | (c, timeinfo) :: rest => submit_and_tick c timeinfo ;; submit_all rest
  end.

End Runs.

(** ** Further code of the file

    The serialisers behind GET /cron_data, the wait for the first time
    synchronisation in obtain_time and the WiFi event handler. *)

Definition INT_MAX : Z := 2 ^ 31 - 1.
Definition INT_MIN : Z := - 2 ^ 31.

(* cJSON_CreateNumber(num): valueint is num cut to the range of int *)
Definition cJSON_CreateNumber (num : Z) : cJSON :=
  cJSON_Number (if num >=? INT_MAX then INT_MAX
                else if num <=? INT_MIN then INT_MIN else num).

Definition cJSON_CreateObject : cJSON := cJSON_Object [].
Definition cJSON_CreateArray : cJSON := cJSON_Array [].

(* The item is appended to the object's members.  Only ever applied to an
   object made by cJSON_CreateObject. *)
Definition cJSON_AddNumberToObject (object : cJSON) (name : string) (number : Z) : cJSON :=
  match object with
  | cJSON_Object members => cJSON_Object (members ++ [(name, cJSON_CreateNumber number)])
  | _ => object
  end.

(* likewise for an array made by cJSON_CreateArray *)
Definition cJSON_AddItemToArray (array item : cJSON) : cJSON :=
  match array with
  | cJSON_Array items => cJSON_Array (items ++ [item])
  | _ => array
  end.

(* lines 64-77 *)
Definition serialize_cron_data (cron_spec : cron_t) : cJSON :=
  let result := cJSON_CreateObject in
  let result := cJSON_AddNumberToObject result "pump_num" (pump_num cron_spec) in
  let result := cJSON_AddNumberToObject result "state" (state cron_spec) in
  let result := cJSON_AddNumberToObject result "hour" (hour cron_spec) in
  let result := cJSON_AddNumberToObject result "minute" (minute cron_spec) in
  let result := cJSON_AddNumberToObject result "pump_on_time" (pump_on_time cron_spec) in
  let result := cJSON_AddNumberToObject result "last_ran_day" (last_ran_day cron_spec) in
  let result := cJSON_AddNumberToObject result "last_ran_hour" (last_ran_hour cron_spec) in
  let result := cJSON_AddNumberToObject result "last_ran_minute"
                  (last_ran_minute cron_spec) in
  result.

(* lines 82-84: for (int i = start; i < start + n; i++) add item i *)
Fixpoint serialize_loop (specs : list cron_t) (i : Z) (n : nat) (cron_spec_arr : cJSON)
  : cJSON :=
  match n with
  | O => cron_spec_arr
  | S n' =>
      serialize_loop specs (i + 1) n'
        (cJSON_AddItemToArray cron_spec_arr
           (serialize_cron_data (nth (Z.to_nat i) specs cron_zero)))
  end.

(* lines 79-86 *)
Definition serialize_cron_specs (specs : list cron_t) : cJSON :=
  serialize_loop specs 0 (Z.to_nat MAX_CRON_SPECS) cJSON_CreateArray.

(* lines 399-421.  The result is the tree that is printed into the
   response, together with the return value; printing it into the
   1000-byte buffer is not modelled. *)
Definition get_cron_data_handler : M (cJSON * esp_err_t) :=
  fun w => ((serialize_cron_specs (cron_specs w), ESP_OK), w).

(* receives from the run-request queue that delivered a message, as
   recorded in a stretch of the trace *)
Definition pump_receives (evs : list io_event) : list event_t :=
  omap (fun e => match e with Receive_pumpEvents (Some m) => Some m | _ => None end) evs.

(* the values an int can hold *)
Definition int_range (z : Z) : Prop := INT_MIN <= z <= INT_MAX.

(* all fields of the struct are ints *)
Definition cron_ints (c : cron_t) : Prop :=
  int_range (pump_num c) /\ int_range (state c) /\ int_range (pump_on_time c) /\
  int_range (hour c) /\ int_range (minute c) /\ int_range (last_ran_day c) /\
  int_range (last_ran_minute c) /\ int_range (last_ran_hour c).

Section Startup.
Context {cfg : Config}.

(* const int retry_count = 15; *)
Definition retry_count : Z := 15.

(* lines 510-515 of obtain_time:
     while (sntp_get_sync_status() == SNTP_SYNC_STATUS_RESET && ++retry < retry_count)
       vTaskDelay(2000 / portTICK_PERIOD_MS);
   [status_reset k] tells whether the k-th call of sntp_get_sync_status
   still answers SNTP_SYNC_STATUS_RESET.  The result is the final value of
   [retry], or [None] if [fuel] tests of the loop condition were not enough
   to leave the loop. *)
Fixpoint obtain_time_wait (status_reset : nat -> bool) (poll : nat) (retry : Z)
  (fuel : nat) : M (option Z) :=
  match fuel with
  | O => ret None
  | S fuel' =>
      if status_reset poll then
        let retry := retry + 1 in
        if retry <? retry_count then
          vTaskDelay (2000 / portTICK_PERIOD_MS) ;;
          obtain_time_wait status_reset (S poll) retry fuel'
        else ret (Some retry)
      else ret (Some retry)
  end.

(* what a request with both durations in order, and a schedule that is
   due, make the runner do, written out *)
Definition pump_one_cycle (ticks : Z) : list io_event :=
  [Ledc_duty 0 LEDC_DUTY; Ledc_duty 1 0; Task_delay ticks; Ledc_duty 0 0; Ledc_duty 1 0].

Definition pump_two_cycle (ticks : Z) : list io_event :=
  [Ledc_duty 0 0; Ledc_duty 1 LEDC_DUTY; Task_delay ticks; Ledc_duty 0 0; Ledc_duty 1 0].

(* the events of one runner turn that finds a message *)
Definition turn_events (m : event_t) : list io_event :=
  [Task_delay (2000 / portTICK_PERIOD_MS); Receive_pumpEvents (Some m)] ++
  run_message_events m.

End Startup.

(** The WiFi event handler (lines 564-594).  Of the event base and id the
    handler tells apart three pairs; every other event is ignored. *)
Inductive wifi_event : Type :=
| WIFI_EVENT_STA_START
| WIFI_EVENT_STA_DISCONNECTED
| IP_EVENT_STA_GOT_IP
| Other_event.

(* s_retry_num, the two bits of s_wifi_event_group, and the number of
   calls of esp_wifi_connect made so far *)
Record wifi_state : Type := mk_wifi {
  s_retry_num : Z;
  WIFI_CONNECTED_BIT : bool;
  WIFI_FAIL_BIT : bool;
  esp_wifi_connect_calls : nat
}.

Definition wifi_start : wifi_state := mk_wifi 0 false false 0.

Section Wifi.
(* from the project configuration, not in the sources at hand *)
Variable EXAMPLE_ESP_MAXIMUM_RETRY : Z.

Definition event_handler (event : wifi_event) (st : wifi_state) : wifi_state :=
  match event with
  | WIFI_EVENT_STA_START =>
      mk_wifi (s_retry_num st) (WIFI_CONNECTED_BIT st) (WIFI_FAIL_BIT st)
              (S (esp_wifi_connect_calls st))
  | WIFI_EVENT_STA_DISCONNECTED =>
      if s_retry_num st <? EXAMPLE_ESP_MAXIMUM_RETRY
      then mk_wifi (s_retry_num st + 1) (WIFI_CONNECTED_BIT st) (WIFI_FAIL_BIT st)
                   (S (esp_wifi_connect_calls st))
      else mk_wifi (s_retry_num st) (WIFI_CONNECTED_BIT st) true
                   (esp_wifi_connect_calls st)
  | IP_EVENT_STA_GOT_IP =>
      mk_wifi 0 true (WIFI_FAIL_BIT st) (esp_wifi_connect_calls st)
  | Other_event => st
  end.

(* the handler called on a sequence of events *)
Definition handle_events (events : list wifi_event) (st : wifi_state) : wifi_state :=
  fold_left (fun st event => event_handler event st) events st.

End Wifi.

(** ** Sample data

    A configuration, schedule entries and clock readings on which the code
    is evaluated below. *)

Definition board : Config :=
  {| LEDC_DUTY := 8191; portTICK_PERIOD_MS := 10; PUMP_EV_NUM := 5 |}.

(* entries as parse_cron_data builds them *)
Definition entry_0730 : cron_t := mk_cron 0 1 60 7 30 (-1) (-1) (-1).
Definition entry_1901 : cron_t := mk_cron 1 1 45 19 1 (-1) (-1) (-1).

(* 07:30 on 15 January and 16 January 2024 *)
Definition jan15_0730 : tm := mk_tm 30 7 15 0 124.
Definition jan16_0730 : tm := mk_tm 30 7 16 0 124.

(* 19:01 on 31 December 1969, where the clock of a board that has not yet
   synchronised stands, and on 31 March 2024 *)
Definition dec31_1969_1901 : tm := mk_tm 1 19 31 11 69.
Definition mar31_2024_1901 : tm := mk_tm 1 19 31 2 124.

(* 20:15 on 31 December 1969, on such a clock, and on 31 January 2024 *)
Definition dec31_1969_2015 : tm := mk_tm 15 20 31 11 69.
Definition jan31_2024_2015 : tm := mk_tm 15 20 31 0 124.

(* noon and midnight of 15 January 2024 *)
Definition jan15_noon : tm := mk_tm 0 12 15 0 124.
Definition jan15_midnight : tm := mk_tm 0 0 15 0 124.

(* a well-formed body for POST /add_cron *)
Definition cron_body (pump on_time h m : Z) : cJSON :=
  cJSON_Object [("pump_num", cJSON_Number pump); ("state", cJSON_Number 1);
                ("pump_on_time", cJSON_Number on_time); ("hour", cJSON_Number h);
                ("minute", cJSON_Number m)]%string.

(* bodies that are JSON but no schedule: fields missing, one of them not
   a number; not an object at all *)
Definition body_missing_fields : cJSON :=
  cJSON_Object [("pump_num", cJSON_Number 1); ("hour", cJSON_String "seven")]%string.
Definition body_not_object : cJSON :=
  cJSON_Array [cJSON_Number 1; cJSON_Number 2].

(* bodies for POST /pumps_on *)
Definition run_body (d1 d2 : Z) : cJSON :=
  cJSON_Object [("pump_1", cJSON_Number d1); ("pump_2", cJSON_Number d2)]%string.

(* a world whose run-request queue holds [q] and whose schedule-update
   queue holds [u], otherwise as after start-up *)
Definition world_with (q : list event_t) (u : list cron_t) : world :=
  mk_world (cron_specs world_init) 0 q u (ledc world_init) [].

(** * Properties *)

(** ** Running commands *)

Lemma exec_bind {A B} (c : M A) (k : A -> M B) (w : world) :
  exec (bind c k) w = exec (k (eval c w)) (exec c w).
Proof. unfold exec, eval, bind. destruct (c w); reflexivity. Qed.

Lemma exec_ret {A} (a : A) (w : world) : exec (ret a) w = w.
Proof. reflexivity. Qed.

Lemma world_eta (w : world) :
  mk_world (cron_specs w) (next_cron_spec w) (pumpEvents w) (timerEvents w)
           (ledc w) (trace w) = w.
Proof. destruct w; reflexivity. Qed.

Section Facts.
Context {cfg : Config}.

(** ** The timer callback, step by step *)

Lemma cron_update_empty (w : world) :
  timerEvents w = [] ->
  exec cron_update w =
  mk_world (cron_specs w) (next_cron_spec w) (pumpEvents w) [] (ledc w)
           (trace w ++ [Receive_timerEvents None]).
Proof.
  intros Hq. unfold cron_update, exec, bind, xQueueReceive_timerEvents.
  rewrite Hq. reflexivity.
Qed.

Lemma cron_update_pending (w : world) (c : cron_t) (rest : list cron_t) :
  timerEvents w = c :: rest ->
  exec cron_update w =
  mk_world (<[Z.to_nat (next_cron_spec w) := c]> (cron_specs w))
           (Z.rem (next_cron_spec w + 1) MAX_CRON_SPECS)
           (pumpEvents w) rest (ledc w)
           (trace w ++ [Receive_timerEvents (Some c)]).
Proof.
  intros Hq. unfold cron_update, exec, bind, xQueueReceive_timerEvents.
  rewrite Hq. reflexivity.
Qed.

Lemma cron_update_ok (w : world) : world_ok w -> world_ok (exec cron_update w).
Proof.
  intros [Hlen Hnext]. destruct (timerEvents w) as [|c rest] eqn:Hq.
  - rewrite (cron_update_empty w Hq). split; assumption.
  - rewrite (cron_update_pending w c rest Hq). split; simpl.
    + rewrite length_insert. exact Hlen.
    + unfold MAX_CRON_SPECS in *.
      pose proof (Z.rem_bound_pos (next_cron_spec w + 1) 5). lia.
Qed.

Lemma scan_entry_due (timeinfo : tm) (c : cron_t) :
  cron_due timeinfo c = true -> scan_entry timeinfo c = mark_ran timeinfo c.
Proof. unfold scan_entry. intros ->. reflexivity. Qed.

Lemma scan_entry_not_due (timeinfo : tm) (c : cron_t) :
  cron_due timeinfo c = false -> scan_entry timeinfo c = c.
Proof. unfold scan_entry. intros ->. reflexivity. Qed.

Lemma cron_check_exec (timeinfo : tm) (i : Z) (w : world) :
  exec (cron_check timeinfo i) w =
  let c := nth (Z.to_nat i) (cron_specs w) cron_zero in
  if cron_due timeinfo c
  then mk_world (<[Z.to_nat i := mark_ran timeinfo c]> (cron_specs w))
                (next_cron_spec w)
                (enqueue (pumpEvents w) (cron_message c))
                (timerEvents w) (ledc w)
                (trace w ++ [Send_pumpEvents (cron_message c) (has_room (pumpEvents w))])
  else w.
Proof.
  unfold cron_check, cron_due, exec, bind, load_cron_spec, store_cron_spec,
    xQueueSend_pumpEvents, enqueue, has_room, ret. simpl.
  destruct (_ =? hour _); simpl; [|reflexivity].
  destruct (_ =? minute _); simpl; [|reflexivity].
  destruct (last_ran_day _ =? _); simpl; [reflexivity|].
  destruct (_ <? PUMP_EV_NUM); reflexivity.
Qed.

Lemma for_loop_scan (timeinfo : tm) (suf : list cron_t) :
  forall (pre : list cron_t) (w : world),
    cron_specs w = pre ++ suf ->
    let msgs := map (fun p => cron_message p.2) (due_from timeinfo (length pre) suf) in
    exec (for_loop (Z.of_nat (length pre)) (length suf) (cron_check timeinfo)) w =
    mk_world (pre ++ map (scan_entry timeinfo) suf) (next_cron_spec w)
             (fold_left enqueue msgs (pumpEvents w)) (timerEvents w) (ledc w)
             (trace w ++ send_events (pumpEvents w) msgs).
Proof.
  induction suf as [|c suf IH]; intros pre w Hspecs; simpl.
  - rewrite app_nil_r in Hspecs.
    rewrite exec_ret, !app_nil_r, <- Hspecs. symmetry; apply world_eta.
  - rewrite exec_bind, cron_check_exec. cbv zeta.
    rewrite Nat2Z.id, Hspecs.
    replace (nth (length pre) (pre ++ c :: suf) cron_zero) with c
      by (rewrite app_nth2, Nat.sub_diag by lia; reflexivity).
    replace (Z.of_nat (length pre) + 1)
      with (Z.of_nat (length (pre ++ [scan_entry timeinfo c])))
      by (rewrite length_app; simpl; lia).
    destruct (cron_due timeinfo c) eqn:Hdue.
    + rewrite IH.
      * simpl. rewrite length_app, Nat.add_1_r, <- !app_assoc. simpl.
        rewrite (scan_entry_due _ _ Hdue). reflexivity.
      * simpl. rewrite (scan_entry_due _ _ Hdue), <- app_assoc. simpl.
        replace (length pre) with (length pre + 0)%nat at 1 by lia.
        rewrite insert_app_r. reflexivity.
    + rewrite IH.
      * simpl. rewrite length_app, Nat.add_1_r, <- !app_assoc. simpl.
        rewrite (scan_entry_not_due _ _ Hdue). reflexivity.
      * rewrite (scan_entry_not_due _ _ Hdue), <- app_assoc. exact Hspecs.
Qed.

Lemma cron_scan_exec (timeinfo : tm) (w : world) :
  length (cron_specs w) = Z.to_nat MAX_CRON_SPECS ->
  let msgs := map (fun p => cron_message p.2) (due_entries timeinfo (cron_specs w)) in
  exec (cron_scan timeinfo) w =
  mk_world (map (scan_entry timeinfo) (cron_specs w)) (next_cron_spec w)
           (fold_left enqueue msgs (pumpEvents w)) (timerEvents w) (ledc w)
           (trace w ++ send_events (pumpEvents w) msgs).
Proof.
  intros Hlen. unfold cron_scan. rewrite <- Hlen.
  exact (for_loop_scan timeinfo (cron_specs w) [] w eq_refl).
Qed.

Lemma pumpTimerCb_exec (timeinfo : tm) (w : world) :
  world_ok w ->
  let wu := exec cron_update w in
  let msgs := map (fun p => cron_message p.2) (tick_requests timeinfo w) in
  exec (pumpTimerCb timeinfo) w =
  mk_world (map (scan_entry timeinfo) (cron_specs wu)) (next_cron_spec wu)
           (fold_left enqueue msgs (pumpEvents wu)) (timerEvents wu) (ledc wu)
           (trace wu ++ send_events (pumpEvents wu) msgs).
Proof.
  intros Hok. unfold pumpTimerCb. rewrite exec_bind.
  apply cron_scan_exec, (cron_update_ok w Hok).
Qed.

Lemma cron_update_pumpEvents (w : world) :
  pumpEvents (exec cron_update w) = pumpEvents w.
Proof.
  destruct (timerEvents w) as [|c rest] eqn:Hq.
  - rewrite (cron_update_empty w Hq); reflexivity.
  - rewrite (cron_update_pending w c rest Hq); reflexivity.
Qed.

Lemma pumpTimerCb_ok (timeinfo : tm) (w : world) :
  world_ok w -> world_ok (exec (pumpTimerCb timeinfo) w).
Proof.
  intros Hok. rewrite (pumpTimerCb_exec timeinfo w Hok).
  destruct (cron_update_ok w Hok) as [Hlen Hnext].
  split; simpl; [rewrite length_map|]; assumption.
Qed.

(** ** Due entries and the slots they come from *)

Lemma cron_due_true (timeinfo : tm) (c : cron_t) :
  cron_due timeinfo c = true <->
  hour c = tm_hour timeinfo /\ minute c = tm_min timeinfo /\
  last_ran_day c <> tm_mday timeinfo.
Proof.
  unfold cron_due. rewrite !andb_true_iff, negb_true_iff, !Z.eqb_eq, Z.eqb_neq.
  intuition congruence.
Qed.

Lemma cron_due_false (timeinfo : tm) (c : cron_t) :
  cron_due timeinfo c = false <->
  ~ (hour c = tm_hour timeinfo /\ minute c = tm_min timeinfo /\
     last_ran_day c <> tm_mday timeinfo).
Proof. rewrite <- cron_due_true. destruct (cron_due timeinfo c); intuition congruence. Qed.

Lemma from_slot_below (timeinfo : tm) (l : list cron_t) :
  forall (a i : nat), (i < a)%nat -> from_slot i (due_from timeinfo a l) = [].
Proof.
  unfold from_slot. induction l as [|c l IH]; intros a i Hlt; simpl; [reflexivity|].
  rewrite filter_app, (IH (S a) i) by lia. rewrite app_nil_r.
  destruct (cron_due timeinfo c); [|reflexivity].
  rewrite filter_cons_False by (simpl; lia). reflexivity.
Qed.

Lemma from_slot_due (timeinfo : tm) (l : list cron_t) :
  forall (a k : nat) (c : cron_t),
    l !! k = Some c -> cron_due timeinfo c = true ->
    from_slot (a + k) (due_from timeinfo a l) = [(a + k, c)%nat].
Proof.
  induction l as [|c0 l IH]; intros a k c Hk Hdue; [discriminate|].
  unfold from_slot in *. simpl. rewrite filter_app. destruct k as [|k]; simpl in Hk.
  - injection Hk as ->. rewrite Hdue, Nat.add_0_r.
    rewrite filter_cons_True by reflexivity. rewrite filter_nil. simpl.
    f_equal. exact (from_slot_below timeinfo l (S a) a (Nat.lt_succ_diag_r a)).
  - replace (a + S k)%nat with (S a + k)%nat by lia.
    rewrite (IH (S a) k c Hk Hdue).
    destruct (cron_due timeinfo c0); [|reflexivity].
    rewrite filter_cons_False by (simpl; lia). reflexivity.
Qed.

Lemma from_slot_not_due (timeinfo : tm) (l : list cron_t) :
  forall (a k : nat) (c : cron_t),
    l !! k = Some c -> cron_due timeinfo c = false ->
    from_slot (a + k) (due_from timeinfo a l) = [].
Proof.
  induction l as [|c0 l IH]; intros a k c Hk Hdue; [discriminate|].
  unfold from_slot in *. simpl. rewrite filter_app. destruct k as [|k]; simpl in Hk.
  - injection Hk as ->. rewrite Hdue, Nat.add_0_r. simpl.
    exact (from_slot_below timeinfo l (S a) a (Nat.lt_succ_diag_r a)).
  - replace (a + S k)%nat with (S a + k)%nat by lia.
    rewrite (IH (S a) k c Hk Hdue).
    destruct (cron_due timeinfo c0); [|reflexivity].
    rewrite filter_cons_False by (simpl; lia). reflexivity.
Qed.

(** ** Sends and the room in the queue *)

Lemma pump_sends_send_events (msgs : list event_t) :
  forall q : list event_t, pump_sends (send_events q msgs) = msgs.
Proof.
  unfold pump_sends. induction msgs as [|m msgs IH]; intros q; simpl; [reflexivity|].
  rewrite IH. reflexivity.
Qed.

Lemma enqueue_with_room (msgs : list event_t) :
  forall q : list event_t,
    Z.of_nat (length q + length msgs) <= PUMP_EV_NUM ->
    fold_left enqueue msgs q = q ++ msgs /\
    send_events q msgs = map (fun m => Send_pumpEvents m true) msgs.
Proof.
  induction msgs as [|m msgs IH]; intros q Hroom; simpl.
  - rewrite app_nil_r. split; reflexivity.
  - simpl in Hroom.
    assert (Hq : has_room q = true) by (unfold has_room; apply Z.ltb_lt; lia).
    replace (enqueue q m) with (q ++ [m]) by (unfold enqueue; rewrite Hq; reflexivity).
    rewrite Hq. destruct (IH (q ++ [m])) as [-> ->].
    + rewrite length_app. simpl. lia.
    + rewrite <- app_assoc. split; reflexivity.
Qed.

(** ** One request per due entry *)

Lemma later_ticks_quiet (i : nat) (c : cron_t) (later : list tm) :
  forall w : world,
    world_ok w -> timerEvents w = [] ->
    cron_specs w !! i = Some c ->
    Forall (fun t' => tm_mday t' = last_ran_day c) later ->
    forall (k : nat) (t' : tm),
      later !! k = Some t' ->
      from_slot i (tick_requests t' (exec (run_ticks (take k later)) w)) = [].
Proof.
  induction later as [|t0 later IH]; intros w Hok Hq Hi Hday k t' Hk; [discriminate|].
  apply Forall_cons in Hday as [Hday0 Hday].
  assert (Hquiet : forall t, tm_mday t = last_ran_day c -> cron_due t c = false).
  { intros t Ht. apply cron_due_false. intros (_ & _ & Hne). congruence. }
  destruct k as [|k]; simpl in *.
  - injection Hk as <-. rewrite exec_ret. unfold tick_requests, due_entries.
    rewrite (cron_update_empty w Hq). simpl.
    exact (from_slot_not_due t0 (cron_specs w) 0 i c Hi (Hquiet t0 Hday0)).
  - rewrite exec_bind. apply IH; try assumption.
    + apply pumpTimerCb_ok, Hok.
    + rewrite (pumpTimerCb_exec t0 w Hok). simpl.
      rewrite (cron_update_empty w Hq). reflexivity.
    + rewrite (pumpTimerCb_exec t0 w Hok). simpl.
      rewrite (cron_update_empty w Hq). simpl.
      rewrite list_lookup_fmap, Hi. simpl.
      rewrite (scan_entry_not_due t0 c (Hquiet t0 Hday0)). reflexivity.
Qed.

(** What the callback does for an entry that passes both tests of lines
    232-233.  Every entry of the table (as the update step leaves it)
    whose hour and minute equal the clock's and whose [last_ran_day]
    differs from the clock's day of the month gets exactly one send to
    the run-request queue, and its last-ran fields become the clock's day
    of the month, hour and minute -- whatever the queue answered to the
    send.  A later callback that reads the same day of the month and
    finds the entry still in its slot sends nothing for it and leaves it
    as it is. *)
Theorem tick_fires_once_per_day_of_month
  (w : world) (timeinfo : tm) (i : nat) (c : cron_t) :
  world_ok w ->
  cron_specs (exec cron_update w) !! i = Some c ->
  hour c = tm_hour timeinfo ->
  minute c = tm_min timeinfo ->
  last_ran_day c <> tm_mday timeinfo ->
  let w' := exec (pumpTimerCb timeinfo) w in
  trace w' =
    trace (exec cron_update w) ++
    send_events (pumpEvents w)
      (map (fun p => cron_message p.2) (tick_requests timeinfo w)) /\
  from_slot i (tick_requests timeinfo w) = [(i, c)] /\
  cron_specs w' !! i = Some (mark_ran timeinfo c) /\
  (exists c' : cron_t,
      cron_specs w' !! i = Some c' /\ same_schedule c c' /\
      last_ran_day c' = tm_mday timeinfo /\ last_ran_hour c' = tm_hour timeinfo /\
      last_ran_minute c' = tm_min timeinfo) /\
  (forall (w2 : world) (t' : tm),
      world_ok w2 ->
      tm_mday t' = tm_mday timeinfo ->
      cron_specs (exec cron_update w2) !! i = Some (mark_ran timeinfo c) ->
      from_slot i (tick_requests t' w2) = [] /\
      cron_specs (exec (pumpTimerCb t') w2) !! i = Some (mark_ran timeinfo c)) /\
  (forall later : list tm,
      Forall (fun t' => tm_mday t' = tm_mday timeinfo) later ->
      timerEvents w' = [] ->
      forall (k : nat) (t' : tm),
        later !! k = Some t' ->
        from_slot i (tick_requests t' (exec (run_ticks (take k later)) w')) = []).
Proof.
  intros Hok Hi Hh Hm Hd w'.
  assert (Hdue : cron_due timeinfo c = true) by (apply cron_due_true; auto).
  assert (Hi' : cron_specs w' !! i = Some (mark_ran timeinfo c)).
  { subst w'. rewrite (pumpTimerCb_exec timeinfo w Hok). simpl.
    rewrite list_lookup_fmap, Hi. simpl.
    rewrite (scan_entry_due timeinfo c Hdue). reflexivity. }
  split; [|split; [|split; [|split; [|split]]]].
  - subst w'. rewrite (pumpTimerCb_exec timeinfo w Hok). simpl.
    rewrite cron_update_pumpEvents. reflexivity.
  - exact (from_slot_due timeinfo _ 0 i c Hi Hdue).
  - exact Hi'.
  - exists (mark_ran timeinfo c). split; [exact Hi'|]. repeat split.
  - intros w2 t' Hok2 Hday Hi2.
    assert (Hquiet : cron_due t' (mark_ran timeinfo c) = false).
    { apply cron_due_false. simpl. intros (_ & _ & Hne). congruence. }
    split.
    + exact (from_slot_not_due t' _ 0 i _ Hi2 Hquiet).
    + rewrite (pumpTimerCb_exec t' w2 Hok2). simpl.
      rewrite list_lookup_fmap, Hi2. simpl.
      rewrite (scan_entry_not_due t' _ Hquiet). reflexivity.
  - intros later Hday Hq k t' Hk.
    apply (later_ticks_quiet i (mark_ran timeinfo c) later w'); auto.
    apply pumpTimerCb_ok, Hok.
Qed.

(** The test the scan applies, as written in lines 232-233: a slot gets a
    send if and only if its hour equals the clock's hour, its minute the
    clock's minute and its [last_ran_day] is not the clock's day of the
    month; the messages sent during the scan are those of these slots,
    one each, in index order, and all of them enter the queue when it has
    room for them. *)
Theorem scan_matches_on_day_of_month (w : world) (timeinfo : tm) :
  world_ok w ->
  let w' := exec (pumpTimerCb timeinfo) w in
  let msgs := map (fun p => cron_message p.2) (tick_requests timeinfo w) in
  (forall (w0 : world) (i : Z),
      let c := nth (Z.to_nat i) (cron_specs w0) cron_zero in
      (hour c = tm_hour timeinfo /\ minute c = tm_min timeinfo /\
       last_ran_day c <> tm_mday timeinfo ->
       trace (exec (cron_check timeinfo i) w0) =
         trace w0 ++ [Send_pumpEvents (cron_message c) (has_room (pumpEvents w0))]) /\
      (~ (hour c = tm_hour timeinfo /\ minute c = tm_min timeinfo /\
          last_ran_day c <> tm_mday timeinfo) ->
       exec (cron_check timeinfo i) w0 = w0)) /\
  (forall (i : nat) (c : cron_t),
      cron_specs (exec cron_update w) !! i = Some c ->
      (from_slot i (tick_requests timeinfo w) = [(i, c)] <->
       hour c = tm_hour timeinfo /\ minute c = tm_min timeinfo /\
       last_ran_day c <> tm_mday timeinfo) /\
      (from_slot i (tick_requests timeinfo w) = [] <->
       ~ (hour c = tm_hour timeinfo /\ minute c = tm_min timeinfo /\
          last_ran_day c <> tm_mday timeinfo))) /\
  (exists evs, trace w' = trace (exec cron_update w) ++ evs /\
               pump_sends evs = msgs /\ length evs = length msgs) /\
  (Z.of_nat (length (pumpEvents w) + length msgs) <= PUMP_EV_NUM ->
   pumpEvents w' = pumpEvents w ++ msgs).
Proof.
  intros Hok w' msgs. split; [|split; [|split]].
  - intros w0 i c. rewrite <- cron_due_false, <- cron_due_true.
    rewrite (cron_check_exec timeinfo i w0). fold c. cbv zeta.
    split; intros ->; reflexivity.
  - intros i c Hi. rewrite <- cron_due_false, <- cron_due_true.
    destruct (cron_due timeinfo c) eqn:Hdue.
    + pose proof (from_slot_due timeinfo _ 0 i c Hi Hdue) as H. simpl in H.
      unfold tick_requests, due_entries. rewrite H.
      split; split; intros; congruence.
    + pose proof (from_slot_not_due timeinfo _ 0 i c Hi Hdue) as H. simpl in H.
      unfold tick_requests, due_entries. rewrite H.
      split; split; intros; congruence.
  - exists (send_events (pumpEvents w) msgs). subst w'.
    rewrite (pumpTimerCb_exec timeinfo w Hok). simpl.
    rewrite cron_update_pumpEvents, pump_sends_send_events. repeat split.
    clear. generalize (pumpEvents w). induction msgs; intros q; simpl; congruence.
  - intros Hroom. subst w'. rewrite (pumpTimerCb_exec timeinfo w Hok). simpl.
    rewrite cron_update_pumpEvents.
    exact (proj1 (enqueue_with_room msgs (pumpEvents w) Hroom)).
Qed.

(** ** The pump runner *)

Lemma run_message_exec (m : event_t) (w : world) :
  let w' := exec (run_message m) w in
  cron_specs w' = cron_specs w /\ next_cron_spec w' = next_cron_spec w /\
  pumpEvents w' = pumpEvents w /\ timerEvents w' = timerEvents w /\
  ledc w' 0 = 0 /\ ledc w' 1 = 0 /\
  trace w' = trace w ++ run_message_events m.
Proof.
  unfold run_message, run_message_events, drive_events, drive_pumps, pump_one_on,
    pump_two_on, pumps_off, set_pump, vTaskDelay, emit, ledc_set_and_update_duty,
    exec, bind, ret.
  destruct (pump_1 m =? PUMP_ON), (pump_2 m =? PUMP_ON); simpl;
    rewrite <- ?app_assoc; simpl; repeat split; reflexivity.
Qed.

Lemma pumpRunner_turn_empty (w : world) :
  pumpEvents w = [] ->
  exec pumpRunner_turn w =
  mk_world (cron_specs w) (next_cron_spec w) [] (timerEvents w) (ledc w)
           (trace w ++ [Task_delay (2000 / portTICK_PERIOD_MS); Receive_pumpEvents None]).
Proof.
  intros Hq. unfold pumpRunner_turn, vTaskDelay, emit, xQueueReceive_pumpEvents,
    exec, bind, ret. simpl. rewrite Hq, <- app_assoc. reflexivity.
Qed.

Lemma pumpRunner_turn_message (w : world) (m : event_t) (rest : list event_t) :
  pumpEvents w = m :: rest ->
  exec pumpRunner_turn w =
  exec (run_message m)
    (mk_world (cron_specs w) (next_cron_spec w) rest (timerEvents w) (ledc w)
       (trace w ++ [Task_delay (2000 / portTICK_PERIOD_MS);
                    Receive_pumpEvents (Some m)])).
Proof.
  intros Hq. unfold pumpRunner_turn, vTaskDelay, emit, xQueueReceive_pumpEvents,
    exec, bind, ret. simpl. rewrite Hq, <- app_assoc. reflexivity.
Qed.

(** C3.  When the pump runner has served a message -- any message, from
    any state of the outputs -- both pump outputs are off: it drives the
    pumps as the message says, sleeps for the message's delay and then
    writes duty 0 to both channels, the last things it does. *)
Theorem pumps_off_after_every_message :
  (forall (w : world) (m : event_t),
      let w' := exec (run_message m) w in
      ledc w' 0 = 0 /\ ledc w' 1 = 0 /\
      trace w' = trace w ++ drive_events m ++
                 [Task_delay (to_TickType (pump_delay m)); Ledc_duty 0 0; Ledc_duty 1 0]) /\
  (forall (w : world) (m : event_t) (rest : list event_t),
      pumpEvents w = m :: rest ->
      let w' := exec pumpRunner_turn w in
      ledc w' 0 = 0 /\ ledc w' 1 = 0 /\ pumpEvents w' = rest /\
      trace w' = trace w ++
                 [Task_delay (2000 / portTICK_PERIOD_MS); Receive_pumpEvents (Some m)] ++
                 drive_events m ++
                 [Task_delay (to_TickType (pump_delay m)); Ledc_duty 0 0; Ledc_duty 1 0]).
Proof.
  split.
  - intros w m w'. destruct (run_message_exec m w) as (_ & _ & _ & _ & H0 & H1 & Htr).
    repeat split; assumption.
  - intros w m rest Hq w'. subst w'. rewrite (pumpRunner_turn_message w m rest Hq).
    match goal with |- context [exec (run_message m) ?w0] =>
      destruct (run_message_exec m w0) as (_ & _ & Hp & _ & H0 & H1 & Htr) end.
    simpl in *. rewrite Htr, <- app_assoc. repeat split; assumption.
Qed.

(** ** Immediate runs *)

Lemma make_delay_in_range (seconds : Z) :
  0 <= seconds -> 1000 * seconds < 2 ^ 31 ->
  make_delay seconds = 1000 * seconds / portTICK_PERIOD_MS.
Proof.
  intros H0 H1. unfold make_delay, to_TickType, to_int.
  rewrite (Z.mod_small (1000 * seconds + 2 ^ 31)) by lia.
  rewrite (Z.mod_small (_ - _)) by lia. f_equal. lia.
Qed.

Lemma runPumps_exec (delay1 delay2 : Z) (w : world) :
  exec (runPumps delay1 delay2) w =
  mk_world (cron_specs w) (next_cron_spec w)
           (fold_left enqueue [run_first delay1; run_second delay2] (pumpEvents w))
           (timerEvents w) (ledc w)
           (trace w ++ send_events (pumpEvents w) [run_first delay1; run_second delay2]).
Proof.
  unfold runPumps, run_first, run_second, exec, bind, ret, xQueueSend_pumpEvents.
  simpl. unfold enqueue, has_room.
  destruct (_ <? PUMP_EV_NUM); simpl; destruct (_ <? PUMP_EV_NUM); simpl;
    rewrite <- (app_assoc (trace w)); reflexivity.
Qed.

Lemma pump_delay_in_range (seconds : Z) :
  0 < portTICK_PERIOD_MS -> 0 <= seconds <= 2147483 ->
  to_int (make_delay seconds) = 1000 * seconds / portTICK_PERIOD_MS.
Proof.
  intros HP Hs.
  rewrite make_delay_in_range by (change (2 ^ 31) with 2147483648; lia).
  assert (H0 : 0 <= 1000 * seconds / portTICK_PERIOD_MS) by (apply Z.div_pos; lia).
  assert (H1 : 1000 * seconds / portTICK_PERIOD_MS <= 1000 * seconds)
    by (apply Z.div_le_upper_bound; nia).
  unfold to_int. change (2 ^ 32) with 4294967296. change (2 ^ 31) with 2147483648.
  rewrite Z.mod_small by lia. lia.
Qed.

(** C4.  One call of runPumps with durations d1 and d2 issues exactly two
    sends to the run-request queue, one straight after the other: first
    the message with pump 1 on, pump 2 off and the delay computed from d1,
    then the message with pump 1 off, pump 2 on and the delay computed
    from d2.  The delay is the int made of (1000*d)/portTICK_PERIOD_MS,
    the product being an int and the division unsigned; for a tick period
    above 0 and durations from 0 to 2147483 seconds that is
    1000*d/portTICK_PERIOD_MS ticks.  The call touches nothing else, and
    when the queue has room for two the two messages are its new tail, in
    that order. *)
Theorem runPumps_two_requests (d1 d2 : Z) (w : world) :
  let w' := exec (runPumps d1 d2) w in
  let ticks := fun seconds : Z =>
    to_int (to_TickType (to_int (1000 * seconds)) / portTICK_PERIOD_MS) in
  let m1 := mk_event PUMP_ON PUMP_OFF (ticks d1) in
  let m2 := mk_event PUMP_OFF PUMP_ON (ticks d2) in
  (exists ok1 ok2 : bool,
      trace w' = trace w ++ [Send_pumpEvents m1 ok1; Send_pumpEvents m2 ok2]) /\
  cron_specs w' = cron_specs w /\ next_cron_spec w' = next_cron_spec w /\
  timerEvents w' = timerEvents w /\ ledc w' = ledc w /\
  (Z.of_nat (length (pumpEvents w)) + 2 <= PUMP_EV_NUM ->
   pumpEvents w' = pumpEvents w ++ [m1; m2] /\
   trace w' = trace w ++ [Send_pumpEvents m1 true; Send_pumpEvents m2 true]) /\
  (0 < portTICK_PERIOD_MS -> 0 <= d1 <= 2147483 -> 0 <= d2 <= 2147483 ->
   (exists ok1 ok2 : bool,
       trace w' = trace w ++
         [Send_pumpEvents (mk_event PUMP_ON PUMP_OFF (1000 * d1 / portTICK_PERIOD_MS)) ok1;
          Send_pumpEvents (mk_event PUMP_OFF PUMP_ON (1000 * d2 / portTICK_PERIOD_MS)) ok2]) /\
   (Z.of_nat (length (pumpEvents w)) + 2 <= PUMP_EV_NUM ->
    pumpEvents w' =
      pumpEvents w ++ [mk_event PUMP_ON PUMP_OFF (1000 * d1 / portTICK_PERIOD_MS);
                       mk_event PUMP_OFF PUMP_ON (1000 * d2 / portTICK_PERIOD_MS)])).
Proof.
  intros w' ticks m1 m2.
  assert (E1 : run_first d1 = m1) by reflexivity.
  assert (E2 : run_second d2 = m2) by reflexivity.
  assert (Hroom : Z.of_nat (length (pumpEvents w)) + 2 <= PUMP_EV_NUM ->
                  pumpEvents w' = pumpEvents w ++ [m1; m2] /\
                  trace w' = trace w ++ [Send_pumpEvents m1 true; Send_pumpEvents m2 true]).
  { intros Hr. subst w'. rewrite runPumps_exec, E1, E2. cbn [pumpEvents trace].
    destruct (enqueue_with_room [m1; m2] (pumpEvents w)) as [-> ->]; [simpl; lia|].
    split; reflexivity. }
  assert (Htrace : exists ok1 ok2 : bool,
             trace w' = trace w ++ [Send_pumpEvents m1 ok1; Send_pumpEvents m2 ok2]).
  { subst w'. rewrite runPumps_exec, E1, E2. cbn [trace send_events]. eauto. }
  split; [exact Htrace|].
  split; [subst w'; rewrite runPumps_exec; reflexivity|].
  split; [subst w'; rewrite runPumps_exec; reflexivity|].
  split; [subst w'; rewrite runPumps_exec; reflexivity|].
  split; [subst w'; rewrite runPumps_exec; reflexivity|].
  split; [exact Hroom|].
  intros HP H1 H2.
  assert (T1 : ticks d1 = 1000 * d1 / portTICK_PERIOD_MS)
    by exact (pump_delay_in_range d1 HP H1).
  assert (T2 : ticks d2 = 1000 * d2 / portTICK_PERIOD_MS)
    by exact (pump_delay_in_range d2 HP H2).
  subst m1 m2. rewrite T1, T2 in *. split; [exact Htrace|].
  intros Hr. exact (proj1 (Hroom Hr)).
Qed.

(** C8.  The handler of POST /pumps_on changes the state -- issues sends
    at all -- only if the body was received, parsed to a JSON object,
    and the members pump_1 and pump_2 of the object are numbers whose
    integer values are both greater than zero; it then runs runPumps on
    them.  If both are numbers and one of them is zero or negative, the
    handler leaves the whole state, the run-request queue included, as it
    was. *)
Theorem pumps_on_handler_guard :
  (forall (recv_ret : Z) (json : option cJSON) (w : world),
      exec (pumps_on_handler recv_ret json) w <> w ->
      exists (members : list (string * cJSON)) (d1 d2 : Z),
        0 <= recv_ret /\
        json = Some (cJSON_Object members) /\
        get_member members "pump_1" = Some (cJSON_Number d1) /\
        get_member members "pump_2" = Some (cJSON_Number d2) /\
        0 < d1 /\ 0 < d2 /\
        exec (pumps_on_handler recv_ret json) w = exec (runPumps d1 d2) w) /\
  (forall (recv_ret : Z) (members : list (string * cJSON)) (d1 d2 : Z) (w : world),
      get_member members "pump_1" = Some (cJSON_Number d1) ->
      get_member members "pump_2" = Some (cJSON_Number d2) ->
      d1 <= 0 \/ d2 <= 0 ->
      let w' := exec (pumps_on_handler recv_ret (Some (cJSON_Object members))) w in
      w' = w /\ pumpEvents w' = pumpEvents w /\ trace w' = trace w) /\
  (forall (recv_ret : Z) (members : list (string * cJSON)) (d1 d2 : Z) (w : world),
      0 <= recv_ret ->
      get_member members "pump_1" = Some (cJSON_Number d1) ->
      get_member members "pump_2" = Some (cJSON_Number d2) ->
      0 < d1 -> 0 < d2 ->
      exec (pumps_on_handler recv_ret (Some (cJSON_Object members))) w =
      exec (runPumps d1 d2) w).
Proof.
  split; [|split].
  - intros recv_ret json w Hne. unfold pumps_on_handler in *.
    destruct (recv_ret <? 0) eqn:Hret; [contradiction Hne; reflexivity|].
    apply Z.ltb_ge in Hret. rewrite exec_bind, exec_ret in *.
    destruct json as [[| | | | |members]|]; try (contradiction Hne; reflexivity).
    simpl in *.
    destruct (get_member members "pump_1") as [[| |d1| | |]|] eqn:Hp1;
      try (contradiction Hne; reflexivity).
    destruct (get_member members "pump_2") as [[| |d2| | |]|] eqn:Hp2;
      try (contradiction Hne; reflexivity).
    simpl in *.
    destruct (d1 >? 0) eqn:H1; [|contradiction Hne; reflexivity].
    destruct (d2 >? 0) eqn:H2; [|contradiction Hne; reflexivity].
    apply Z.gtb_lt in H1, H2.
    exists members, d1, d2. repeat split; try reflexivity; assumption.
  - intros recv_ret members d1 d2 w Hp1 Hp2 Hle w'.
    assert (Hw : w' = w); [|rewrite Hw; repeat split].
    subst w'. unfold pumps_on_handler.
    destruct (recv_ret <? 0); [reflexivity|].
    rewrite exec_bind, exec_ret. simpl. rewrite Hp1, Hp2. simpl.
    destruct (d1 >? 0) eqn:H1; [|reflexivity].
    destruct (d2 >? 0) eqn:H2; [|reflexivity]. lia.
  - intros recv_ret members d1 d2 w Hret Hp1 Hp2 H1 H2.
    unfold pumps_on_handler.
    apply Z.ltb_ge in Hret. rewrite Hret, exec_bind, exec_ret. simpl.
    rewrite Hp1, Hp2. simpl.
    apply Z.gtb_lt in H1, H2. rewrite H1, H2. reflexivity.
Qed.

(** ** Schedule submissions *)

Lemma parse_cron_data_invalid (json : cJSON) :
  cron_json_invalid json -> parse_cron_data json = cron_zero.
Proof.
  unfold parse_cron_data. intros [Hobj | (name & Hin & Hnum)].
  - rewrite Hobj. reflexivity.
  - destruct (cJSON_IsObject (Some json)); [|reflexivity].
    simpl in Hin.
    destruct Hin as [<-|[<-|[<-|[<-|[<-|[]]]]]]; rewrite Hnum;
      rewrite ?andb_false_r; reflexivity.
Qed.

Lemma parse_cron_data_valid (members : list (string * cJSON)) (n1 n2 n3 n4 n5 : Z) :
  get_member members "pump_num" = Some (cJSON_Number n1) ->
  get_member members "state" = Some (cJSON_Number n2) ->
  get_member members "pump_on_time" = Some (cJSON_Number n3) ->
  get_member members "hour" = Some (cJSON_Number n4) ->
  get_member members "minute" = Some (cJSON_Number n5) ->
  parse_cron_data (cJSON_Object members) = mk_cron n1 n2 n3 n4 n5 (-1) (-1) (-1).
Proof.
  intros H1 H2 H3 H4 H5. unfold parse_cron_data. simpl.
  rewrite H1, H2, H3, H4, H5. reflexivity.
Qed.

Lemma add_cron_handler_exec (recv_ret : Z) (json : cJSON) (w : world) :
  0 <= recv_ret ->
  exec (add_cron_handler recv_ret (Some json)) w =
  mk_world (cron_specs w) (next_cron_spec w) (pumpEvents w)
           (enqueue (timerEvents w) (parse_cron_data json)) (ledc w)
           (trace w ++ [Send_timerEvents (parse_cron_data json) (has_room (timerEvents w))]).
Proof.
  intros Hret. apply Z.ltb_ge in Hret.
  unfold add_cron_handler, exec, bind, ret, xQueueSend_timerEvents, enqueue, has_room.
  rewrite Hret. destruct (_ <? PUMP_EV_NUM); reflexivity.
Qed.

(** C10.  When the validation in parse_cron_data fails -- the body is not
    a JSON object, or one of the five fields is missing or not a number --
    the function returns the all-zero entry: pump_num, hour, minute and
    last_ran_day are 0, whereas a successful parse writes -1 into
    last_ran_day.  add_cron_handler sends that zero entry to the
    schedule-update queue whenever the received body parsed as JSON, and
    the entry joins the queue if there is room. *)
Theorem invalid_cron_is_sent_as_zero_entry :
  (forall json : cJSON,
      cron_json_invalid json ->
      parse_cron_data json = cron_zero /\
      pump_num (parse_cron_data json) = 0 /\ hour (parse_cron_data json) = 0 /\
      minute (parse_cron_data json) = 0 /\ last_ran_day (parse_cron_data json) = 0) /\
  (forall (members : list (string * cJSON)) (n1 n2 n3 n4 n5 : Z),
      get_member members "pump_num" = Some (cJSON_Number n1) ->
      get_member members "state" = Some (cJSON_Number n2) ->
      get_member members "pump_on_time" = Some (cJSON_Number n3) ->
      get_member members "hour" = Some (cJSON_Number n4) ->
      get_member members "minute" = Some (cJSON_Number n5) ->
      last_ran_day (parse_cron_data (cJSON_Object members)) = -1) /\
  (forall (recv_ret : Z) (json : cJSON) (w : world),
      0 <= recv_ret ->
      cron_json_invalid json ->
      let w' := exec (add_cron_handler recv_ret (Some json)) w in
      trace w' = trace w ++ [Send_timerEvents cron_zero (has_room (timerEvents w))] /\
      timerEvents w' = enqueue (timerEvents w) cron_zero /\
      (has_room (timerEvents w) = true -> timerEvents w' = timerEvents w ++ [cron_zero])).
Proof.
  split; [|split].
  - intros json Hbad. rewrite (parse_cron_data_invalid json Hbad).
    repeat split; reflexivity.
  - intros members n1 n2 n3 n4 n5 H1 H2 H3 H4 H5.
    rewrite (parse_cron_data_valid members n1 n2 n3 n4 n5 H1 H2 H3 H4 H5). reflexivity.
  - intros recv_ret json w Hret Hbad w'. subst w'.
    rewrite (add_cron_handler_exec recv_ret json w Hret),
      (parse_cron_data_invalid json Hbad). simpl.
    repeat split. intros Hroom. unfold enqueue. rewrite Hroom. reflexivity.
Qed.

(** ** The schedule store *)

Lemma pumpTimerCb_timerEvents (timeinfo : tm) (w : world) :
  world_ok w ->
  timerEvents (exec (pumpTimerCb timeinfo) w) = tail (timerEvents w).
Proof.
  intros Hok. rewrite (pumpTimerCb_exec timeinfo w Hok). simpl.
  destruct (timerEvents w) as [|c rest] eqn:Hq.
  - rewrite (cron_update_empty w Hq). reflexivity.
  - rewrite (cron_update_pending w c rest Hq). reflexivity.
Qed.

Lemma send_events_no_receive (msgs : list event_t) :
  forall q : list event_t,
    Forall (fun e => is_timer_receive e = false) (send_events q msgs).
Proof.
  induction msgs as [|m msgs IH]; intros q; simpl; constructor; auto.
Qed.

(** C7.  A run of the timer callback begins with one non-blocking
    receive from the schedule-update queue and performs no other: if an
    entry is pending, the oldest one is taken and inserted into the
    table -- written into the slot under the cursor, the other slots
    kept, the cursor moved on to (cursor + 1) mod 5 -- and the rest of the
    queue stays where it is, even when several are waiting; if none is
    pending, the update step leaves table and cursor as they were. *)
Theorem one_update_per_tick :
  (forall (timeinfo : tm) (w : world),
      world_ok w ->
      exists evs : list io_event,
        trace (exec (pumpTimerCb timeinfo) w) =
          trace w ++ Receive_timerEvents (head (timerEvents w)) :: evs /\
        Forall (fun e => is_timer_receive e = false) evs) /\
  (forall (timeinfo : tm) (w : world) (c : cron_t) (rest : list cron_t),
      world_ok w ->
      timerEvents w = c :: rest ->
      cron_specs (exec cron_update w) =
        <[Z.to_nat (next_cron_spec w) := c]> (cron_specs w) /\
      timerEvents (exec cron_update w) = rest /\
      timerEvents (exec (pumpTimerCb timeinfo) w) = rest /\
      cron_specs (exec (pumpTimerCb timeinfo) w) =
        map (scan_entry timeinfo) (<[Z.to_nat (next_cron_spec w) := c]> (cron_specs w)) /\
      cron_specs (exec cron_update w) !! Z.to_nat (next_cron_spec w) = Some c /\
      (forall j : nat, j <> Z.to_nat (next_cron_spec w) ->
                       cron_specs (exec cron_update w) !! j = cron_specs w !! j) /\
      next_cron_spec (exec cron_update w) = (next_cron_spec w + 1) mod 5 /\
      next_cron_spec (exec (pumpTimerCb timeinfo) w) = (next_cron_spec w + 1) mod 5 /\
      next_cron_spec (exec (pumpTimerCb timeinfo) w) <> next_cron_spec w) /\
  (forall (w : world),
      timerEvents w = [] ->
      cron_specs (exec cron_update w) = cron_specs w /\
      next_cron_spec (exec cron_update w) = next_cron_spec w /\
      timerEvents (exec cron_update w) = []) /\
  (forall (timeinfo : tm) (w : world),
      world_ok w ->
      timerEvents w = [] ->
      cron_specs (exec (pumpTimerCb timeinfo) w) =
        map (scan_entry timeinfo) (cron_specs w) /\
      next_cron_spec (exec (pumpTimerCb timeinfo) w) = next_cron_spec w /\
      timerEvents (exec (pumpTimerCb timeinfo) w) = []).
Proof.
  split; [|split; [|split]].
  - intros timeinfo w Hok. rewrite (pumpTimerCb_exec timeinfo w Hok). simpl.
    eexists. split; [|apply send_events_no_receive].
    destruct (timerEvents w) as [|c rest] eqn:Hq.
    + rewrite (cron_update_empty w Hq). simpl. rewrite <- app_assoc. reflexivity.
    + rewrite (cron_update_pending w c rest Hq). simpl. rewrite <- app_assoc. reflexivity.
  - intros timeinfo w c rest Hok Hq.
    rewrite (pumpTimerCb_timerEvents timeinfo w Hok), (pumpTimerCb_exec timeinfo w Hok).
    rewrite (cron_update_pending w c rest Hq), Hq.
    cbn [cron_specs timerEvents next_cron_spec tail].
    destruct Hok as [Hlen Hnext]. unfold MAX_CRON_SPECS in *.
    assert (Hcur : Z.rem (next_cron_spec w + 1) 5 = (next_cron_spec w + 1) mod 5)
      by (apply Z.rem_mod_nonneg; lia).
    rewrite Hcur.
    split; [reflexivity|]. split; [reflexivity|]. split; [reflexivity|].
    split; [reflexivity|].
    split; [apply list_lookup_insert_eq; lia|].
    split; [intros j Hj; apply list_lookup_insert_ne; congruence|].
    split; [reflexivity|]. split; [reflexivity|].
    pose proof (Z.mod_pos_bound (next_cron_spec w + 1) 5 eq_refl) as Hb.
    intros Heq.
    destruct (Z.eq_dec (next_cron_spec w) 4) as [H4|H4].
    + rewrite H4 in Heq. vm_compute in Heq. discriminate.
    + rewrite Z.mod_small in Heq by lia. lia.
  - intros w Hq. rewrite (cron_update_empty w Hq). repeat split.
  - intros timeinfo w Hok Hq.
    rewrite (pumpTimerCb_timerEvents timeinfo w Hok), (pumpTimerCb_exec timeinfo w Hok).
    rewrite (cron_update_empty w Hq), Hq. repeat split.
Qed.

Lemma same_schedule_refl (c : cron_t) : same_schedule c c.
Proof. repeat split. Qed.

Lemma same_schedule_sym (a b : cron_t) : same_schedule a b -> same_schedule b a.
Proof. unfold same_schedule. intuition congruence. Qed.

Lemma same_schedule_trans (a b c : cron_t) :
  same_schedule a b -> same_schedule b c -> same_schedule a c.
Proof. unfold same_schedule. intuition congruence. Qed.

Lemma same_schedule_scan (timeinfo : tm) (c : cron_t) :
  same_schedule c (scan_entry timeinfo c).
Proof. unfold scan_entry. destruct (cron_due timeinfo c); repeat split. Qed.

Lemma submit_and_tick_exec (c : cron_t) (timeinfo : tm) (w : world) :
  world_ok w -> timerEvents w = [] -> 0 < PUMP_EV_NUM ->
  let w' := exec (submit_and_tick c timeinfo) w in
  world_ok w' /\ timerEvents w' = [] /\
  cron_specs w' =
    map (scan_entry timeinfo) (<[Z.to_nat (next_cron_spec w) := c]> (cron_specs w)) /\
  next_cron_spec w' = Z.rem (next_cron_spec w + 1) MAX_CRON_SPECS.
Proof.
  intros Hok Hq Hcap w'. subst w'. unfold submit_and_tick. rewrite exec_bind.
  set (w1 := exec (xQueueSend_timerEvents c) w).
  assert (H1 : w1 = mk_world (cron_specs w) (next_cron_spec w) (pumpEvents w) [c]
                             (ledc w) (trace w ++ [Send_timerEvents c true])).
  { subst w1. unfold exec, xQueueSend_timerEvents. rewrite Hq. simpl.
    change (Z.of_nat 0) with 0. apply Z.ltb_lt in Hcap. rewrite Hcap. reflexivity. }
  assert (Hok1 : world_ok w1) by (rewrite H1; exact Hok).
  assert (Hq1 : timerEvents w1 = [c]) by (rewrite H1; reflexivity).
  split; [apply pumpTimerCb_ok, Hok1|].
  rewrite (pumpTimerCb_timerEvents timeinfo w1 Hok1), (pumpTimerCb_exec timeinfo w1 Hok1).
  rewrite (cron_update_pending w1 c [] Hq1), Hq1, H1. simpl. repeat split.
Qed.

(** C5.  Writing a pending entry into the table cannot fail: the entry
    lands in the slot the cursor names, the other slots keep their
    contents, the cursor moves on to (cursor + 1) mod 5, and the table
    stays in shape for the next insertion.  Hence six entries submitted
    one per callback run into the empty table leave the last five in the
    slots k mod 5 -- the sixth in slot 0, where the first had been -- and
    the first is gone: no slot holds its schedule unless a later entry
    repeats it. *)
Theorem insert_overwrites_oldest :
  (forall (w : world) (c : cron_t) (rest : list cron_t),
      world_ok w ->
      timerEvents w = c :: rest ->
      let w' := exec cron_update w in
      world_ok w' /\
      cron_specs w' !! Z.to_nat (next_cron_spec w) = Some c /\
      (forall j : nat, j <> Z.to_nat (next_cron_spec w) ->
                       cron_specs w' !! j = cron_specs w !! j) /\
      next_cron_spec w' = (next_cron_spec w + 1) mod MAX_CRON_SPECS) /\
  (forall (e0 e1 e2 e3 e4 e5 : cron_t) (t0 t1 t2 t3 t4 t5 : tm),
      0 < PUMP_EV_NUM ->
      let w6 := exec (submit_all [(e0, t0); (e1, t1); (e2, t2);
                                  (e3, t3); (e4, t4); (e5, t5)]) world_init in
      Forall2 same_schedule [e5; e1; e2; e3; e4] (cron_specs w6) /\
      next_cron_spec w6 = 1 /\
      ((forall e, In e [e1; e2; e3; e4; e5] -> ~ same_schedule e0 e) ->
       forall c, In c (cron_specs w6) -> ~ same_schedule e0 c)).
Proof.
  split.
  - intros w c rest Hok Hq w'. subst w'. split; [apply cron_update_ok, Hok|].
    rewrite (cron_update_pending w c rest Hq). simpl.
    destruct Hok as [Hlen Hnext]. unfold MAX_CRON_SPECS in *. repeat split.
    + apply list_lookup_insert_eq. lia.
    + intros j Hj. apply list_lookup_insert_ne. congruence.
    + rewrite Z.rem_mod_nonneg by lia. reflexivity.
  - intros e0 e1 e2 e3 e4 e5 t0 t1 t2 t3 t4 t5 Hcap w6.
    assert (Hspecs : Forall2 same_schedule [e5; e1; e2; e3; e4] (cron_specs w6)
                     /\ next_cron_spec w6 = 1).
    { subst w6. simpl. rewrite !exec_bind, exec_ret.
      assert (Hinit : world_ok world_init /\ timerEvents world_init = [])
        by (repeat split; simpl; unfold MAX_CRON_SPECS; lia).
      destruct Hinit as [Hok0 Hq0].
      destruct (submit_and_tick_exec e0 t0 _ Hok0 Hq0 Hcap) as (Hok1 & Hq1 & Hs1 & Hn1).
      destruct (submit_and_tick_exec e1 t1 _ Hok1 Hq1 Hcap) as (Hok2 & Hq2 & Hs2 & Hn2).
      destruct (submit_and_tick_exec e2 t2 _ Hok2 Hq2 Hcap) as (Hok3 & Hq3 & Hs3 & Hn3).
      destruct (submit_and_tick_exec e3 t3 _ Hok3 Hq3 Hcap) as (Hok4 & Hq4 & Hs4 & Hn4).
      destruct (submit_and_tick_exec e4 t4 _ Hok4 Hq4 Hcap) as (Hok5 & Hq5 & Hs5 & Hn5).
      destruct (submit_and_tick_exec e5 t5 _ Hok5 Hq5 Hcap) as (Hok6 & Hq6 & Hs6 & Hn6).
      rewrite Hn6, Hn5, Hn4, Hn3, Hn2, Hn1. split; [|reflexivity].
      rewrite Hs6, Hn5, Hn4, Hn3, Hn2, Hn1, Hs5, Hn4, Hn3, Hn2, Hn1, Hs4, Hn3, Hn2, Hn1,
        Hs3, Hn2, Hn1, Hs2, Hn1, Hs1.
      pose proof (same_schedule_scan t0) as F0. pose proof (same_schedule_scan t1) as F1.
      pose proof (same_schedule_scan t2) as F2. pose proof (same_schedule_scan t3) as F3.
      pose proof (same_schedule_scan t4) as F4. pose proof (same_schedule_scan t5) as F5.
      revert F0 F1 F2 F3 F4 F5.
      generalize (scan_entry t0), (scan_entry t1), (scan_entry t2), (scan_entry t3),
        (scan_entry t4), (scan_entry t5).
      intros f0 f1 f2 f3 f4 f5 F0 F1 F2 F3 F4 F5. simpl.
      repeat constructor;
        repeat (eapply same_schedule_trans; [|solve [apply F5|apply F4|apply F3|apply F2|apply F1|apply F0]]);
        apply same_schedule_refl. }
    destruct Hspecs as [Hspecs Hnext]. repeat split; try assumption.
    intros Hfresh c Hin Hsame.
    destruct (cron_specs w6) as [|c0 [|c1 [|c2 [|c3 [|c4 [|]]]]]];
      try (exfalso; apply Forall2_length in Hspecs; discriminate).
    repeat match goal with H : Forall2 _ (_ :: _) (_ :: _) |- _ =>
      apply Forall2_cons in H as [? H] end.
    simpl in Hin.
    destruct Hin as [Hc|[Hc|[Hc|[Hc|[Hc|[]]]]]]; subst c;
      match goal with H : same_schedule ?e ?x, Hs : same_schedule e0 ?x |- _ =>
        apply (Hfresh e); [simpl; tauto|];
        exact (same_schedule_trans _ _ _ Hs (same_schedule_sym _ _ H)) end.
Qed.

(** ** The pump outputs along a run *)

Lemma duties_after_app (evs1 evs2 : list io_event) (s : Z * Z) :
  duties_after (evs1 ++ evs2) s = duties_after evs2 (duties_after evs1 s).
Proof. apply fold_left_app. Qed.

Lemma duties_along_app (evs1 evs2 : list io_event) :
  forall s : Z * Z,
    duties_along (evs1 ++ evs2) s =
    duties_along evs1 s ++ duties_along evs2 (duties_after evs1 s).
Proof.
  induction evs1 as [|e evs1 IH]; intros s; simpl; [reflexivity|].
  rewrite IH. reflexivity.
Qed.

Lemma quiet_events (evs : list io_event) (s : Z * Z) :
  Forall (fun e => is_ledc_event e = false) evs ->
  duties_after evs s = s /\
  (at_most_one_on s -> Forall at_most_one_on (duties_along evs s)).
Proof.
  induction 1 as [|e evs He _ [IH1 IH2]]; simpl; [split; auto|].
  assert (Hs : duty_step s e = s) by (destruct e; try discriminate; reflexivity).
  rewrite Hs. split; [exact IH1|]. intros Hone. constructor; auto.
Qed.

Lemma send_events_quiet (msgs : list event_t) :
  forall q : list event_t,
    Forall (fun e => is_ledc_event e = false) (send_events q msgs).
Proof.
  induction msgs as [|m msgs IH]; intros q; simpl; constructor; auto.
Qed.

Lemma pumps_idle_quiet (w w' : world) (evs : list io_event) :
  pumps_idle w -> world_ok w' ->
  ledc w' 0 = ledc w 0 -> ledc w' 1 = ledc w 1 ->
  trace w' = trace w ++ evs ->
  Forall (fun e => is_ledc_event e = false) evs ->
  pumps_idle w'.
Proof.
  intros (_ & H0 & H1 & Hafter & Halong) Hok' E0 E1 Htr Hquiet.
  destruct (quiet_events evs (0, 0) Hquiet) as [Q1 Q2].
  unfold pumps_idle. rewrite Htr, duties_after_app, duties_along_app, Hafter, Q1.
  repeat split; try congruence; try apply Hok'.
  apply Forall_app. split; [exact Halong|]. apply Q2. left; reflexivity.
Qed.

Lemma run_message_safe (m : event_t) :
  duties_after (run_message_events m) (0, 0) = (0, 0) /\
  Forall at_most_one_on (duties_along (run_message_events m) (0, 0)).
Proof.
  unfold run_message_events, drive_events.
  destruct (pump_1 m =? PUMP_ON), (pump_2 m =? PUMP_ON); simpl;
    (split; [reflexivity|]);
    repeat (apply Forall_cons; split;
            [unfold at_most_one_on; simpl; solve [left; reflexivity|right; reflexivity]|]);
    apply Forall_nil_2.
Qed.

Lemma pumps_on_handler_cases (recv_ret : Z) (json : option cJSON) (w : world) :
  exec (pumps_on_handler recv_ret json) w = w \/
  exists d1 d2 : Z, exec (pumps_on_handler recv_ret json) w = exec (runPumps d1 d2) w.
Proof.
  unfold pumps_on_handler. destruct (recv_ret <? 0); [left; reflexivity|].
  rewrite exec_bind, exec_ret.
  destruct json as [j|]; [|left; reflexivity].
  destruct (cJSON_IsObject (Some j)); [|left; reflexivity].
  destruct (_ && _); [|left; reflexivity].
  destruct (_ && _); [right; eauto|left; reflexivity].
Qed.

Lemma add_cron_handler_cases (recv_ret : Z) (json : option cJSON) (w : world) :
  exec (add_cron_handler recv_ret json) w = w \/
  exists (c : cron_t) (ok : bool),
    exec (add_cron_handler recv_ret json) w =
    mk_world (cron_specs w) (next_cron_spec w) (pumpEvents w)
             (if ok then timerEvents w ++ [c] else timerEvents w) (ledc w)
             (trace w ++ [Send_timerEvents c ok]).
Proof.
  destruct (Z.ltb_spec recv_ret 0) as [Hneg|Hpos].
  - left. unfold add_cron_handler. apply Z.ltb_lt in Hneg. rewrite Hneg. reflexivity.
  - destruct json as [j|].
    + right. exists (parse_cron_data j), (has_room (timerEvents w)).
      rewrite (add_cron_handler_exec recv_ret j w Hpos). unfold enqueue. reflexivity.
    + left. unfold add_cron_handler. apply Z.ltb_ge in Hpos. rewrite Hpos. reflexivity.
Qed.

Lemma run_action_idle (a : action) (w : world) :
  pumps_idle w -> pumps_idle (exec (run_action a) w).
Proof.
  intros Hidle. pose proof Hidle as (Hok & H0 & H1 & Hafter & Halong).
  destruct a as [timeinfo|recv_ret json|recv_ret json|]; simpl.
  - apply (pumps_idle_quiet w _
             (Receive_timerEvents (head (timerEvents w)) ::
              send_events (pumpEvents w)
                (map (fun p => cron_message p.2) (tick_requests timeinfo w))) Hidle).
    + apply pumpTimerCb_ok, Hok.
    + rewrite (pumpTimerCb_exec timeinfo w Hok). simpl.
      destruct (timerEvents w) as [|c rest] eqn:Hq;
        [rewrite (cron_update_empty w Hq)|rewrite (cron_update_pending w c rest Hq)];
        reflexivity.
    + rewrite (pumpTimerCb_exec timeinfo w Hok). simpl.
      destruct (timerEvents w) as [|c rest] eqn:Hq;
        [rewrite (cron_update_empty w Hq)|rewrite (cron_update_pending w c rest Hq)];
        reflexivity.
    + rewrite (pumpTimerCb_exec timeinfo w Hok). simpl.
      rewrite cron_update_pumpEvents.
      destruct (timerEvents w) as [|c rest] eqn:Hq;
        [rewrite (cron_update_empty w Hq)|rewrite (cron_update_pending w c rest Hq)];
        simpl; rewrite <- app_assoc; reflexivity.
    + constructor; [reflexivity|apply send_events_quiet].
  - rewrite exec_bind, exec_ret.
    destruct (pumps_on_handler_cases recv_ret json w) as [->|(d1 & d2 & ->)];
      [exact Hidle|].
    rewrite runPumps_exec.
    eapply (pumps_idle_quiet w _ _ Hidle); try reflexivity; [exact Hok|].
    apply send_events_quiet.
  - rewrite exec_bind, exec_ret.
    destruct (add_cron_handler_cases recv_ret json w) as [->|(c & ok & ->)];
      [exact Hidle|].
    eapply (pumps_idle_quiet w _ _ Hidle); try reflexivity; [exact Hok|].
    repeat constructor.
  - destruct (pumpEvents w) as [|m rest] eqn:Hq.
    + rewrite (pumpRunner_turn_empty w Hq).
      eapply (pumps_idle_quiet w _ _ Hidle); try reflexivity; [exact Hok|].
      repeat constructor.
    + rewrite (pumpRunner_turn_message w m rest Hq).
      match goal with |- pumps_idle (exec (run_message m) ?w0) =>
        destruct (run_message_exec m w0) as (Es & En & _ & _ & E0 & E1 & Etr) end.
      simpl in *. destruct (run_message_safe m) as [S1 S2].
      assert (Hq2 : Forall (fun e => is_ledc_event e = false)
                      [Task_delay (2000 / portTICK_PERIOD_MS); Receive_pumpEvents (Some m)])
        by (repeat constructor).
      destruct (quiet_events _ (0, 0) Hq2) as [Q1 Q2].
      unfold pumps_idle, world_ok. rewrite Es, En, Etr.
      rewrite !duties_after_app, !duties_along_app, Hafter, Q1, S1.
      repeat split; try assumption; try apply Hok.
      repeat (apply Forall_app; split); try assumption.
      * apply Q2. left; reflexivity.
      * rewrite duties_after_app, Hafter, Q1. exact S2.
Qed.

Lemma run_actions_idle (l : list action) :
  forall w : world, pumps_idle w -> pumps_idle (exec (run_actions l) w).
Proof.
  induction l as [|a l IH]; intros w Hidle; simpl; [exact Hidle|].
  rewrite exec_bind. apply IH, run_action_idle, Hidle.
Qed.

Lemma pumpRunnerTaskFunction_idle (turns : nat) :
  forall w : world, pumps_idle w -> pumps_idle (exec (pumpRunnerTaskFunction turns) w).
Proof.
  induction turns as [|n IH]; intros w Hidle; simpl; [exact Hidle|].
  rewrite exec_bind. apply IH, (run_action_idle Runner_turn), Hidle.
Qed.

Lemma world_init_idle : pumps_idle world_init.
Proof.
  unfold pumps_idle, world_ok, MAX_CRON_SPECS. simpl.
  repeat split; try reflexivity; try lia. constructor.
Qed.

(** C9.  Each of the three pump commands writes both LEDC channels:
    pump_one_on leaves channel 0 at the running duty and channel 1 at 0,
    pump_two_on the reverse, pumps_off both at 0.  Starting from the
    state app_main sets up, whatever timer callbacks, HTTP requests and
    runner turns follow, after every single LEDC write at most one of the
    two outputs is running.  A message with PUMP_ON for both pumps ends up
    with only channel 1 running, pump_two_on being executed last. *)
Theorem at_most_one_pump_on :
  (forall w : world,
      (let w' := exec pump_one_on w in
       ledc w' 0 = LEDC_DUTY /\ ledc w' 1 = 0 /\
       trace w' = trace w ++ [Ledc_duty 0 LEDC_DUTY; Ledc_duty 1 0]) /\
      (let w' := exec pump_two_on w in
       ledc w' 0 = 0 /\ ledc w' 1 = LEDC_DUTY /\
       trace w' = trace w ++ [Ledc_duty 0 0; Ledc_duty 1 LEDC_DUTY]) /\
      (let w' := exec pumps_off w in
       ledc w' 0 = 0 /\ ledc w' 1 = 0 /\
       trace w' = trace w ++ [Ledc_duty 0 0; Ledc_duty 1 0])) /\
  (forall l : list action,
      let w := exec (run_actions l) world_init in
      Forall at_most_one_on (duties_along (trace w) (0, 0)) /\
      duties_after (trace w) (0, 0) = (ledc w 0, ledc w 1)) /\
  (forall (w : world) (m : event_t),
      pump_1 m = PUMP_ON -> pump_2 m = PUMP_ON ->
      let w' := exec (drive_pumps m) w in
      ledc w' 0 = 0 /\ ledc w' 1 = LEDC_DUTY /\
      trace w' = trace w ++ [Ledc_duty 0 LEDC_DUTY; Ledc_duty 1 0;
                             Ledc_duty 0 0; Ledc_duty 1 LEDC_DUTY]).
Proof.
  split; [|split].
  - intros w.
    unfold pump_one_on, pump_two_on, pumps_off, set_pump, ledc_set_and_update_duty,
      exec, bind. simpl. rewrite <- !app_assoc. repeat split.
  - intros l w.
    destruct (run_actions_idle l world_init world_init_idle) as (_ & H0 & H1 & Ha & Hl).
    fold w in H0, H1, Ha, Hl. rewrite H0, H1. split; assumption.
  - intros w m H1 H2.
    unfold drive_pumps, pump_one_on, pump_two_on, set_pump, ledc_set_and_update_duty,
      exec, bind. rewrite H1, H2. simpl. rewrite <- !app_assoc. repeat split.
Qed.

End Facts.

(** * The code on concrete inputs *)

Section Board.
#[local] Existing Instance board.

(* A request the full queue turns down still marks the entry as run. *)
Example dropped_request_counts_as_ran :
  let full := replicate 5 event_zero in
  let w' := exec (pumpTimerCb jan15_0730) (world_with full [entry_0730]) in
  pumpEvents w' = full /\
  pump_sends (trace w') = [mk_event PUMP_ON PUMP_OFF 6000] /\
  trace w' = [Receive_timerEvents (Some entry_0730);
              Send_pumpEvents (mk_event PUMP_ON PUMP_OFF 6000) false] /\
  cron_specs w' !! 0%nat = Some (mk_cron 0 1 60 7 30 15 30 7).
Proof. vm_compute. repeat split. Qed.

(* The next day the entry is due again. *)
Example next_day_fires_again :
  let w1 := exec (submit_and_tick entry_0730 jan15_0730) world_init in
  let w2 := exec (pumpTimerCb jan16_0730) w1 in
  from_slot 0 (tick_requests jan16_0730 w1) = [(0%nat, mk_cron 0 1 60 7 30 15 30 7)] /\
  pumpEvents w2 = [mk_event PUMP_ON PUMP_OFF 6000; mk_event PUMP_ON PUMP_OFF 6000].
Proof. vm_compute. repeat split. Qed.

(** C1: the code at an input where it breaks the claim.  The claim: an
    entry whose hour and minute are the clock's and which has not run that
    calendar day gets exactly one request.  Here the entry in slot 0,
    posted to a board whose clock has not been set yet, runs at 19:01 on
    31 December 1969.  The clock is then set, and the next callback that
    finds 19:01 comes on 31 March 2024: hour and minute are the entry's,
    its only run was on another date -- and the code, comparing
    last_ran_day 31 with tm_mday 31, takes the branch it comments "it
    already ran today, skip it": no request is sent and the last-ran
    fields stay those of 1969. *)
Lemma fires_once_per_calendar_day_fails :
  let w1 := exec (run_actions [Post_add_cron 40 (Some (cron_body 1 45 19 1));
                               Timer_callback dec31_1969_1901]) world_init in
  let w2 := exec (pumpTimerCb mar31_2024_1901) w1 in
  let c := mk_cron 1 1 45 19 1 31 1 19 in
  parse_cron_data (cron_body 1 45 19 1) = mk_cron 1 1 45 19 1 (-1) (-1) (-1) /\
  cron_specs w1 !! 0%nat = Some c /\
  pump_sends (trace w1) = [mk_event PUMP_OFF PUMP_ON 4500] /\
  date_of dec31_1969_1901 = (69, 11, 31) /\ date_of mar31_2024_1901 = (124, 2, 31) /\
  date_of dec31_1969_1901 <> date_of mar31_2024_1901 /\
  hour c = tm_hour mar31_2024_1901 /\ minute c = tm_min mar31_2024_1901 /\
  last_ran_day c = tm_mday mar31_2024_1901 /\
  from_slot 0 (tick_requests mar31_2024_1901 w1) = [] /\
  trace w2 = trace w1 ++ [Receive_timerEvents None] /\
  pump_sends (trace w2) = pump_sends (trace w1) /\
  pumpEvents w2 = pumpEvents w1 /\
  cron_specs w2 !! 0%nat = Some c.
Proof. vm_compute. repeat split. discriminate. Qed.

(** C2: the code at an input where it breaks the claim.  The claim: a
    slot matches when its hour and minute are the clock's and its last-run
    date is not the current calendar day, the full date.  Slot 0 holds an
    entry for 20:15 whose last run was at 20:15 on 31 December 1969, on a
    clock not set yet.  At 20:15 on 31 January 2024 the rule of the claim
    says the slot matches; the code compares last_ran_day 31 with tm_mday
    31, takes the branch it comments "it already ran today, skip it" and
    sends nothing, although the entry has not run on that day. *)
Lemma match_on_full_date_fails :
  let w1 := exec (run_actions [Post_add_cron 40 (Some (cron_body 0 60 20 15));
                               Timer_callback dec31_1969_2015]) world_init in
  let w2 := exec (pumpTimerCb jan31_2024_2015) w1 in
  let c := mk_cron 0 1 60 20 15 31 15 20 in
  parse_cron_data (cron_body 0 60 20 15) = mk_cron 0 1 60 20 15 (-1) (-1) (-1) /\
  cron_specs w1 !! 0%nat = Some c /\
  pump_sends (trace w1) = [mk_event PUMP_ON PUMP_OFF 6000] /\
  date_of dec31_1969_2015 = (69, 11, 31) /\ date_of jan31_2024_2015 = (124, 0, 31) /\
  spec_entry_matches jan31_2024_2015 c (Some (date_of dec31_1969_2015)) = true /\
  cron_due jan31_2024_2015 c = false /\
  from_slot 0 (tick_requests jan31_2024_2015 w1) = [] /\
  trace w2 = trace w1 ++ [Receive_timerEvents None] /\
  pump_sends (trace w2) = pump_sends (trace w1) /\
  pumpEvents w2 = pumpEvents w1 /\
  cron_specs w2 !! 0%nat = Some c.
Proof. vm_compute. repeat split. Qed.

(** C6: what the code does with a malformed submission.  Five valid
    schedules fill the table.  Then a body with fields missing is posted:
    parse_cron_data turns it into the all-zero entry, the handler queues
    it, and the next callback writes it into slot 0 over the 06:00
    schedule.  At midnight the zero entry is due and a request is sent
    for it. *)
Lemma malformed_submission_reaches_store :
  let posts := flat_map (fun h => [Post_add_cron 10 (Some (cron_body 0 60 h 0));
                                   Timer_callback jan15_noon]) [6; 7; 8; 9; 10] in
  let filled := exec (run_actions posts) world_init in
  let queued := exec (add_cron_handler 10 (Some body_missing_fields)) filled in
  let w := exec (pumpTimerCb jan15_noon) queued in
  cron_json_invalid body_missing_fields /\
  cron_specs filled = map (fun h => mk_cron 0 1 60 h 0 (-1) (-1) (-1)) [6; 7; 8; 9; 10] /\
  timerEvents queued = [cron_zero] /\
  cron_specs w = cron_zero :: map (fun h => mk_cron 0 1 60 h 0 (-1) (-1) (-1)) [7; 8; 9; 10] /\
  tick_requests jan15_midnight w = [(0%nat, cron_zero)] /\
  pumpEvents (exec (pumpTimerCb jan15_midnight) w) = [mk_event PUMP_ON PUMP_OFF 0].
Proof.
  split.
  - right. exists "state"%string. split; [simpl; tauto|reflexivity].
  - vm_compute. repeat split.
Qed.

(* A body that is no object is queued as the zero entry just the same. *)
Example non_object_submission_is_queued :
  cron_json_invalid body_not_object /\
  timerEvents (exec (add_cron_handler 10 (Some body_not_object)) world_init) = [cron_zero].
Proof. split; [left; reflexivity|reflexivity]. Qed.

(* POST /pumps_on with 30 and 45 seconds queues both runs; with a
   negative duration nothing happens. *)
Example pumps_on_runs_both :
  pumpEvents (exec (pumps_on_handler 27 (Some (run_body 30 45))) world_init) =
    [mk_event PUMP_ON PUMP_OFF 3000; mk_event PUMP_OFF PUMP_ON 4500] /\
  exec (pumps_on_handler 27 (Some (run_body 30 (-5)))) world_init = world_init.
Proof. split; reflexivity. Qed.

(** ** The theorems at work *)

Lemma tick_fires_once_per_day_of_month_witness :
  let w := world_with [] [entry_0730] in
  world_ok w /\
  cron_specs (exec cron_update w) !! 0%nat = Some entry_0730 /\
  hour entry_0730 = tm_hour jan15_0730 /\
  minute entry_0730 = tm_min jan15_0730 /\
  last_ran_day entry_0730 <> tm_mday jan15_0730 /\
  from_slot 0 (tick_requests jan15_0730 w) = [(0%nat, entry_0730)] /\
  cron_specs (exec (pumpTimerCb jan15_0730) w) !! 0%nat
    = Some (mark_ran jan15_0730 entry_0730).
Proof.
  intros w.
  assert (H1 : world_ok w) by (unfold world_ok, MAX_CRON_SPECS; simpl; lia).
  assert (H2 : cron_specs (exec cron_update w) !! 0%nat = Some entry_0730) by reflexivity.
  assert (H3 : hour entry_0730 = tm_hour jan15_0730) by reflexivity.
  assert (H4 : minute entry_0730 = tm_min jan15_0730) by reflexivity.
  assert (H5 : last_ran_day entry_0730 <> tm_mday jan15_0730) by (simpl; lia).
  destruct (tick_fires_once_per_day_of_month w jan15_0730 0 entry_0730 H1 H2 H3 H4 H5)
    as (_ & R1 & R2 & _ & _ & _).
  exact (conj H1 (conj H2 (conj H3 (conj H4 (conj H5 (conj R1 R2)))))).
Defined.

Lemma scan_matches_on_day_of_month_witness :
  let w := world_with [] [entry_0730] in
  world_ok w /\
  Z.of_nat (length (pumpEvents w) +
            length (map (fun p => cron_message p.2) (tick_requests jan15_0730 w)))
    <= PUMP_EV_NUM /\
  pumpEvents (exec (pumpTimerCb jan15_0730) w) =
    pumpEvents w ++ map (fun p => cron_message p.2) (tick_requests jan15_0730 w).
Proof.
  intros w.
  assert (H1 : world_ok w) by (unfold world_ok, MAX_CRON_SPECS; simpl; lia).
  assert (H2 : Z.of_nat (length (pumpEvents w) +
                 length (map (fun p => cron_message p.2) (tick_requests jan15_0730 w)))
               <= PUMP_EV_NUM) by (vm_compute; discriminate).
  destruct (scan_matches_on_day_of_month w jan15_0730 H1) as (_ & _ & _ & R).
  exact (conj H1 (conj H2 (R H2))).
Defined.

Lemma pumps_off_after_every_message_witness :
  let m := mk_event PUMP_ON PUMP_OFF 6000 in
  let w := world_with [m] [] in
  pumpEvents w = [m] /\
  ledc (exec pumpRunner_turn w) 0 = 0 /\ ledc (exec pumpRunner_turn w) 1 = 0.
Proof.
  intros m w.
  assert (H : pumpEvents w = [m]) by reflexivity.
  destruct (proj2 pumps_off_after_every_message w m [] H) as (R0 & R1 & _).
  exact (conj H (conj R0 R1)).
Defined.

Lemma runPumps_two_requests_witness :
  Z.of_nat (length (pumpEvents world_init)) + 2 <= PUMP_EV_NUM /\
  0 < portTICK_PERIOD_MS /\ 0 <= 30 <= 2147483 /\ 0 <= 45 <= 2147483 /\
  pumpEvents (exec (runPumps 30 45) world_init) =
    pumpEvents world_init ++
    [mk_event PUMP_ON PUMP_OFF (1000 * 30 / portTICK_PERIOD_MS);
     mk_event PUMP_OFF PUMP_ON (1000 * 45 / portTICK_PERIOD_MS)] /\
  1000 * 30 / portTICK_PERIOD_MS = 3000 /\ 1000 * 45 / portTICK_PERIOD_MS = 4500.
Proof.
  assert (H : Z.of_nat (length (pumpEvents world_init)) + 2 <= PUMP_EV_NUM)
    by (vm_compute; discriminate).
  assert (HP : 0 < portTICK_PERIOD_MS) by (simpl; lia).
  assert (H1 : 0 <= 30 <= 2147483) by lia.
  assert (H2 : 0 <= 45 <= 2147483) by lia.
  destruct (runPumps_two_requests 30 45 world_init) as (_ & _ & _ & _ & _ & _ & R).
  destruct (R HP H1 H2) as [_ Rq].
  exact (conj H (conj HP (conj H1 (conj H2 (conj (Rq H) (conj eq_refl eq_refl)))))).
Defined.

Lemma insert_overwrites_oldest_witness :
  let w := world_with [] [entry_0730; entry_1901] in
  world_ok w /\ timerEvents w = entry_0730 :: [entry_1901] /\
  cron_specs (exec cron_update w) !! Z.to_nat (next_cron_spec w) = Some entry_0730 /\
  next_cron_spec (exec cron_update w) = (next_cron_spec w + 1) mod MAX_CRON_SPECS.
Proof.
  intros w.
  assert (H1 : world_ok w) by (unfold world_ok, MAX_CRON_SPECS; simpl; lia).
  assert (H2 : timerEvents w = entry_0730 :: [entry_1901]) by reflexivity.
  destruct (proj1 insert_overwrites_oldest w entry_0730 [entry_1901] H1 H2)
    as (_ & R1 & _ & R2).
  exact (conj H1 (conj H2 (conj R1 R2))).
Defined.

Lemma one_update_per_tick_witness :
  let w := world_with [] [entry_0730; entry_1901] in
  world_ok w /\ timerEvents w = entry_0730 :: [entry_1901] /\
  timerEvents (exec (pumpTimerCb jan15_noon) w) = [entry_1901] /\
  cron_specs (exec (pumpTimerCb jan15_noon) w) =
    map (scan_entry jan15_noon)
        (<[Z.to_nat (next_cron_spec w) := entry_0730]> (cron_specs w)) /\
  next_cron_spec (exec (pumpTimerCb jan15_noon) w) = (next_cron_spec w + 1) mod 5 /\
  (next_cron_spec w + 1) mod 5 = 1.
Proof.
  intros w.
  assert (H1 : world_ok w) by (unfold world_ok, MAX_CRON_SPECS; simpl; lia).
  assert (H2 : timerEvents w = entry_0730 :: [entry_1901]) by reflexivity.
  destruct (proj1 (proj2 one_update_per_tick) jan15_noon w entry_0730 [entry_1901] H1 H2)
    as (_ & _ & R1 & R2 & _ & _ & _ & R3 & _).
  exact (conj H1 (conj H2 (conj R1 (conj R2 (conj R3 eq_refl))))).
Defined.

Lemma pumps_on_handler_guard_witness :
  let members := [("pump_1", cJSON_Number 0); ("pump_2", cJSON_Number 45)]%string in
  get_member members "pump_1" = Some (cJSON_Number 0) /\
  get_member members "pump_2" = Some (cJSON_Number 45) /\
  (0 <= 0 \/ 45 <= 0) /\
  pumpEvents (exec (pumps_on_handler 20 (Some (cJSON_Object members))) world_init)
    = pumpEvents world_init.
Proof.
  intros members.
  assert (H1 : get_member members "pump_1" = Some (cJSON_Number 0)) by reflexivity.
  assert (H2 : get_member members "pump_2" = Some (cJSON_Number 45)) by reflexivity.
  assert (H3 : 0 <= 0 \/ 45 <= 0) by (left; lia).
  destruct (proj1 (proj2 pumps_on_handler_guard) 20 members 0 45 world_init H1 H2 H3)
    as (_ & R & _).
  exact (conj H1 (conj H2 (conj H3 R))).
Defined.

Lemma at_most_one_pump_on_witness :
  let m := mk_event PUMP_ON PUMP_ON 6000 in
  pump_1 m = PUMP_ON /\ pump_2 m = PUMP_ON /\
  ledc (exec (drive_pumps m) world_init) 0 = 0 /\
  ledc (exec (drive_pumps m) world_init) 1 = LEDC_DUTY.
Proof.
  intros m.
  assert (H1 : pump_1 m = PUMP_ON) by reflexivity.
  assert (H2 : pump_2 m = PUMP_ON) by reflexivity.
  destruct (proj2 (proj2 at_most_one_pump_on) world_init m H1 H2) as (R0 & R1 & _).
  exact (conj H1 (conj H2 (conj R0 R1))).
Defined.

Lemma invalid_cron_is_sent_as_zero_entry_witness :
  0 <= 10 /\ cron_json_invalid body_missing_fields /\
  has_room (timerEvents world_init) = true /\
  timerEvents (exec (add_cron_handler 10 (Some body_missing_fields)) world_init)
    = timerEvents world_init ++ [cron_zero].
Proof.
  assert (H1 : 0 <= 10) by lia.
  assert (H2 : cron_json_invalid body_missing_fields).
  { right. exists "state"%string. split; [simpl; tauto|reflexivity]. }
  assert (H3 : has_room (timerEvents world_init) = true) by reflexivity.
  destruct (proj2 (proj2 invalid_cron_is_sent_as_zero_entry) 10 body_missing_fields
              world_init H1 H2) as (_ & _ & R).
  exact (conj H1 (conj H2 (conj H3 (R H3)))).
Defined.

End Board.

(** * Beyond the claims *)

Section More.
Context {cfg : Config}.

(** ** Who writes what *)

Lemma pumpRunner_turn_frame (w : world) :
  let w' := exec pumpRunner_turn w in
  cron_specs w' = cron_specs w /\ next_cron_spec w' = next_cron_spec w /\
  timerEvents w' = timerEvents w /\ pumpEvents w' = tail (pumpEvents w).
Proof.
  intros w'. subst w'. destruct (pumpEvents w) as [|m rest] eqn:Hq.
  - rewrite (pumpRunner_turn_empty w Hq). repeat split.
  - rewrite (pumpRunner_turn_message w m rest Hq).
    match goal with |- context [exec (run_message m) ?w0] =>
      destruct (run_message_exec m w0) as (Es & En & Ep & Et & _) end.
    simpl in *. repeat split; assumption.
Qed.

(** X1.  Only the timer callback writes the cron table: the two POST
    handlers and a turn of the pump runner leave every slot and the cursor
    as they were, and take nothing out of the schedule-update queue. *)
Theorem table_written_by_timer_callback_only :
  (forall (recv_ret : Z) (json : option cJSON) (w : world),
      let w' := exec (pumps_on_handler recv_ret json) w in
      cron_specs w' = cron_specs w /\ next_cron_spec w' = next_cron_spec w /\
      timerEvents w' = timerEvents w) /\
  (forall (recv_ret : Z) (json : option cJSON) (w : world),
      let w' := exec (add_cron_handler recv_ret json) w in
      cron_specs w' = cron_specs w /\ next_cron_spec w' = next_cron_spec w /\
      exists more, timerEvents w' = timerEvents w ++ more) /\
  (forall w : world,
      let w' := exec pumpRunner_turn w in
      cron_specs w' = cron_specs w /\ next_cron_spec w' = next_cron_spec w /\
      timerEvents w' = timerEvents w).
Proof.
  split; [|split].
  - intros recv_ret json w w'. subst w'.
    destruct (pumps_on_handler_cases recv_ret json w) as [->|(d1 & d2 & ->)].
    + repeat split.
    + rewrite runPumps_exec. repeat split.
  - intros recv_ret json w w'. subst w'.
    destruct (add_cron_handler_cases recv_ret json w) as [->|(c & ok & ->)].
    + repeat split. exists []. rewrite app_nil_r. reflexivity.
    + simpl. repeat split. destruct ok; [exists [c]|exists []]; simpl;
        rewrite ?app_nil_r; reflexivity.
  - intros w w'. destruct (pumpRunner_turn_frame w) as (H1 & H2 & H3 & _).
    repeat split; assumption.
Qed.

Lemma run_action_ok (a : action) (w : world) :
  world_ok w -> world_ok (exec (run_action a) w).
Proof.
  intros Hok. destruct a as [timeinfo|recv_ret json|recv_ret json|]; simpl.
  - apply pumpTimerCb_ok, Hok.
  - rewrite exec_bind, exec_ret.
    destruct (pumps_on_handler_cases recv_ret json w) as [->|(d1 & d2 & ->)];
      [exact Hok|rewrite runPumps_exec; exact Hok].
  - rewrite exec_bind, exec_ret.
    destruct (add_cron_handler_cases recv_ret json w) as [->|(c & ok & ->)]; exact Hok.
  - destruct (pumpRunner_turn_frame w) as (H1 & H2 & _).
    unfold world_ok. rewrite H1, H2. exact Hok.
Qed.

Lemma world_init_ok : world_ok world_init.
Proof. unfold world_ok, MAX_CRON_SPECS. simpl. lia. Qed.

Lemma run_actions_ok (l : list action) :
  forall w : world, world_ok w -> world_ok (exec (run_actions l) w).
Proof.
  induction l as [|a l IH]; intros w Hok; simpl.
  - exact Hok.
  - rewrite exec_bind. apply IH, run_action_ok, Hok.
Qed.

(** X2.  Whatever callbacks, requests and runner turns follow start-up --
    or any state in which the table has its five slots and the cursor lies
    in 0..4 -- the table keeps its five slots and the cursor stays in
    0..4: the writes of [cron_specs[next_cron_spec]] and the reads of
    [cron_specs[i]] never leave the array. *)
Theorem table_in_shape_along_runs :
  world_ok world_init /\
  forall (l : list action) (w : world),
    world_ok w ->
    let w' := exec (run_actions l) w in
    length (cron_specs w') = 5%nat /\ 0 <= next_cron_spec w' < 5.
Proof.
  split; [exact world_init_ok|]. intros l w Hok. exact (run_actions_ok l w Hok).
Qed.

(** ** Requests beyond the room in the queue *)

Lemma enqueue_take (msgs : list event_t) :
  forall q : list event_t,
    fold_left enqueue msgs q =
    q ++ take (Z.to_nat (PUMP_EV_NUM - Z.of_nat (length q))) msgs.
Proof.
  induction msgs as [|m msgs IH]; intros q; simpl.
  - rewrite take_nil, app_nil_r. reflexivity.
  - unfold enqueue at 2. unfold has_room.
    destruct (Z.ltb_spec (Z.of_nat (length q)) PUMP_EV_NUM) as [Hroom|Hfull].
    + rewrite IH, length_app. simpl.
      replace (Z.to_nat (PUMP_EV_NUM - Z.of_nat (length q)))
        with (S (Z.to_nat (PUMP_EV_NUM - Z.of_nat (length q + 1)))) by lia.
      simpl. rewrite <- app_assoc. reflexivity.
    + rewrite IH.
      replace (Z.to_nat (PUMP_EV_NUM - Z.of_nat (length q))) with 0%nat by lia.
      reflexivity.
Qed.

(** X3.  runPumps ignores what the queue answers: of its two requests the
    queue takes as many as it has free places, in order.  With one free
    place only the request for pump 1 is queued and that for pump 2 is
    lost; with none, nothing changes but the trace. *)
Theorem runPumps_takes_free_places (d1 d2 : Z) (w : world) :
  let w' := exec (runPumps d1 d2) w in
  let free := PUMP_EV_NUM - Z.of_nat (length (pumpEvents w)) in
  pumpEvents w' = pumpEvents w ++ take (Z.to_nat free) [run_first d1; run_second d2] /\
  (free = 1 -> pumpEvents w' = pumpEvents w ++ [run_first d1]) /\
  (free <= 0 -> pumpEvents w' = pumpEvents w).
Proof.
  intros w' free. subst w'. rewrite runPumps_exec. cbn [pumpEvents].
  rewrite enqueue_take. fold free. split; [reflexivity|]. split.
  - intros ->. reflexivity.
  - intros Hfull. replace (Z.to_nat free) with 0%nat by lia.
    rewrite take_0, app_nil_r. reflexivity.
Qed.


(** X5.  The scan never touches what was submitted: after a callback every
    slot holds the same pump, state, on-time, hour and minute as the
    update step left in it, and a slot whose entry is not due is left
    exactly as it was. *)
Theorem scan_keeps_schedules (w : world) (timeinfo : tm) :
  world_ok w ->
  let before := cron_specs (exec cron_update w) in
  let after := cron_specs (exec (pumpTimerCb timeinfo) w) in
  Forall2 same_schedule before after /\
  forall (i : nat) (c : cron_t),
    before !! i = Some c -> cron_due timeinfo c = false -> after !! i = Some c.
Proof.
  intros Hok before after. subst after.
  rewrite (pumpTimerCb_exec timeinfo w Hok). cbn [cron_specs]. fold before. split.
  - generalize before. induction before0 as [|c l IH]; simpl; constructor;
      [apply same_schedule_scan|exact IH].
  - intros i c Hi Hdue. rewrite list_lookup_fmap, Hi. simpl.
    rewrite (scan_entry_not_due timeinfo c Hdue). reflexivity.
Qed.

(** ** Delays *)

Lemma to_TickType_to_int (z : Z) :
  0 <= z < 2 ^ 32 -> to_TickType (to_int z) = z.
Proof.
  intros Hz. unfold to_TickType, to_int.
  change (2 ^ 32) with 4294967296 in *. change (2 ^ 31) with 2147483648.
  rewrite Zminus_mod_idemp_l.
  replace (z + 2147483648 - 2147483648) with z by lia.
  apply Z.mod_small. exact Hz.
Qed.

Lemma make_delay_bounds (seconds : Z) :
  0 < portTICK_PERIOD_MS -> 0 <= make_delay seconds < 2 ^ 32.
Proof.
  intros HP. unfold make_delay, to_TickType.
  pose proof (Z.mod_pos_bound (to_int (1000 * seconds)) (2 ^ 32) eq_refl) as Hm.
  split.
  - apply Z.div_pos; lia.
  - apply Z.div_lt_upper_bound; nia.
Qed.

(** X6.  Keeping the delay in the int field of the message loses
    nothing: whatever number of seconds was asked for, the runner sleeps
    for exactly make_delay(seconds) ticks between switching a pump on and
    switching both off, for a request of runPumps as for one of a schedule
    entry. *)
Theorem runner_holds_for_make_delay (seconds : Z) (w : world) :
  0 < portTICK_PERIOD_MS ->
  trace (exec (run_message (run_first seconds)) w) =
    trace w ++ pump_one_cycle (make_delay seconds) /\
  trace (exec (run_message (run_second seconds)) w) =
    trace w ++ pump_two_cycle (make_delay seconds) /\
  forall c : cron_t,
    pump_on_time c = seconds ->
    to_TickType (pump_delay (cron_message c)) = make_delay seconds.
Proof.
  intros HP.
  pose proof (to_TickType_to_int _ (make_delay_bounds seconds HP)) as Hrt.
  split; [|split].
  - destruct (run_message_exec (run_first seconds) w) as (_ & _ & _ & _ & _ & _ & ->).
    unfold run_message_events, drive_events, run_first, pump_one_cycle. simpl.
    rewrite Hrt. reflexivity.
  - destruct (run_message_exec (run_second seconds) w) as (_ & _ & _ & _ & _ & _ & ->).
    unfold run_message_events, drive_events, run_second, pump_two_cycle. simpl.
    rewrite Hrt. reflexivity.
  - intros c <-. unfold cron_message. simpl. apply to_TickType_to_int.
    apply make_delay_bounds, HP.
Qed.

(** X7.  make_delay on numbers of seconds whose thousandfold fits an int:
    a duration from 0 to 2147483 seconds gives 1000*seconds/tick period
    ticks; a negative one, which add_cron accepts as pump_on_time, is
    read as unsigned and gives (2^32 + 1000*seconds)/tick period ticks --
    at least as long as any duration of the first kind. *)
Theorem make_delay_of_negative_is_long :
  0 < portTICK_PERIOD_MS ->
  (forall s : Z, 0 <= s <= 2147483 ->
                 make_delay s = 1000 * s / portTICK_PERIOD_MS) /\
  (forall s : Z, -2147483 <= s < 0 ->
                 make_delay s = (2 ^ 32 + 1000 * s) / portTICK_PERIOD_MS) /\
  (forall s s' : Z, -2147483 <= s < 0 -> 0 <= s' <= 2147483 ->
                    make_delay s' <= make_delay s).
Proof.
  intros HP.
  assert (Hpos : forall s, 0 <= s <= 2147483 ->
                           make_delay s = 1000 * s / portTICK_PERIOD_MS).
  { intros s Hs. apply make_delay_in_range; [lia|].
    change (2 ^ 31) with 2147483648. lia. }
  assert (Hneg : forall s, -2147483 <= s < 0 ->
                           make_delay s = (2 ^ 32 + 1000 * s) / portTICK_PERIOD_MS).
  { intros s Hs. unfold make_delay, to_TickType, to_int.
    change (2 ^ 32) with 4294967296. change (2 ^ 31) with 2147483648.
    rewrite (Z.mod_small (1000 * s + 2147483648)) by lia.
    replace (1000 * s + 2147483648 - 2147483648) with (1000 * s) by lia.
    replace (1000 * s) with (4294967296 + 1000 * s + (-1) * 4294967296) at 1 by lia.
    rewrite Z.mod_add by lia. rewrite Z.mod_small by lia. reflexivity. }
  split; [exact Hpos|]. split; [exact Hneg|].
  intros s s' Hs Hs'. rewrite (Hpos s' Hs'), (Hneg s Hs).
  change (2 ^ 32) with 4294967296. apply Z.div_le_mono; lia.
Qed.

(** ** What the table makes the pumps do *)

(** X8.  A table that still holds nothing but the zero entries of
    start-up is not inert: these entries read "pump 0, for 0 seconds, at
    00:00".  A callback that finds 00:00 on the clock (on a day of the
    month other than 0) sends five requests to switch pump 1 on for 0
    ticks and marks all five slots; a callback at any other minute sends
    nothing and leaves the table alone. *)
Theorem empty_table_fires_at_midnight (w : world) (timeinfo : tm) :
  cron_specs w = cron_specs world_init ->
  0 <= next_cron_spec w < 5 ->
  timerEvents w = [] ->
  let w' := exec (pumpTimerCb timeinfo) w in
  (tm_hour timeinfo = 0 -> tm_min timeinfo = 0 -> tm_mday timeinfo <> 0 ->
   trace w' = trace w ++ Receive_timerEvents None ::
              send_events (pumpEvents w) (replicate 5 (mk_event PUMP_ON PUMP_OFF 0)) /\
   cron_specs w' = replicate 5 (mk_cron 0 0 0 0 0 (tm_mday timeinfo) 0 0)) /\
  (~ (tm_hour timeinfo = 0 /\ tm_min timeinfo = 0) ->
   trace w' = trace w ++ [Receive_timerEvents None] /\
   cron_specs w' = cron_specs w /\ pumpEvents w' = pumpEvents w).
Proof.
  intros Hspecs Hnext Hq w'. subst w'.
  assert (Hok : world_ok w) by (split; [rewrite Hspecs; reflexivity|exact Hnext]).
  rewrite (pumpTimerCb_exec timeinfo w Hok). unfold tick_requests, due_entries.
  rewrite (cron_update_empty w Hq). cbn [cron_specs pumpEvents trace]. rewrite Hspecs.
  assert (Hzero : to_int (make_delay 0) = 0) by reflexivity.
  split.
  - intros Hh Hm Hd.
    assert (Hdue : cron_due timeinfo cron_zero = true)
      by (apply cron_due_true; simpl; auto).
    simpl. rewrite !(scan_entry_due _ _ Hdue), Hdue. simpl.
    unfold cron_message, mark_ran. simpl. rewrite Hzero, Hh, Hm, <- app_assoc.
    split; reflexivity.
  - intros Hnot.
    assert (Hdue : cron_due timeinfo cron_zero = false).
    { apply cron_due_false. simpl. intros (Hh & Hm & _). auto. }
    simpl. rewrite !(scan_entry_not_due _ _ Hdue), Hdue. simpl.
    rewrite app_nil_r. repeat split.
Qed.

(** X9.  What a due schedule entry makes the runner do depends on its
    pump_num alone: 0 runs pump 1 and 1 runs pump 2 for the entry's
    on-time; with any other pump_num, which add_cron accepts, the runner
    sleeps for the on-time without switching any pump on.  The state
    field of the entry plays no part. *)
Theorem schedule_actuation_by_pump_num (c : cron_t) (w : world) :
  0 < portTICK_PERIOD_MS ->
  let w' := exec (run_message (cron_message c)) w in
  let ticks := make_delay (pump_on_time c) in
  (pump_num c = 0 -> trace w' = trace w ++ pump_one_cycle ticks) /\
  (pump_num c = 1 -> trace w' = trace w ++ pump_two_cycle ticks) /\
  (pump_num c <> 0 -> pump_num c <> 1 ->
   trace w' = trace w ++ [Task_delay ticks; Ledc_duty 0 0; Ledc_duty 1 0]).
Proof.
  intros HP w' ticks. subst w' ticks.
  destruct (run_message_exec (cron_message c) w) as (_ & _ & _ & _ & _ & _ & ->).
  pose proof (to_TickType_to_int _ (make_delay_bounds (pump_on_time c) HP)) as Hrt.
  unfold run_message_events, drive_events, cron_message, pump_one_cycle, pump_two_cycle.
  split; [|split].
  - intros ->. simpl. rewrite Hrt. reflexivity.
  - intros ->. simpl. rewrite Hrt. reflexivity.
  - intros H0 H1. apply Z.eqb_neq in H0, H1. rewrite H0, H1. simpl.
    rewrite Hrt. reflexivity.
Qed.

(** ** From a request to the pumps *)

Lemma pumps_on_handler_runs (recv_ret : Z) (members : list (string * cJSON))
  (d1 d2 : Z) (w : world) :
  0 <= recv_ret ->
  get_member members "pump_1" = Some (cJSON_Number d1) ->
  get_member members "pump_2" = Some (cJSON_Number d2) ->
  0 < d1 -> 0 < d2 ->
  exec (pumps_on_handler recv_ret (Some (cJSON_Object members))) w =
  exec (runPumps d1 d2) w.
Proof.
  intros Hret Hp1 Hp2 H1 H2. unfold pumps_on_handler.
  apply Z.ltb_ge in Hret. rewrite Hret, exec_bind, exec_ret. simpl.
  rewrite Hp1, Hp2. simpl.
  apply Z.gtb_lt in H1, H2. rewrite H1, H2. reflexivity.
Qed.

Lemma pumpRunner_turn_trace (w : world) (m : event_t) (rest : list event_t) :
  pumpEvents w = m :: rest ->
  let w' := exec pumpRunner_turn w in
  pumpEvents w' = rest /\ ledc w' 0 = 0 /\ ledc w' 1 = 0 /\
  trace w' = trace w ++ turn_events m.
Proof.
  intros Hq w'. subst w'. rewrite (pumpRunner_turn_message w m rest Hq).
  match goal with |- context [exec (run_message m) ?w0] =>
    destruct (run_message_exec m w0) as (_ & _ & Ep & _ & E0 & E1 & Et) end.
  simpl in *. unfold turn_events. rewrite Et, <- app_assoc.
  repeat split; assumption.
Qed.

(** X10.  A POST /pumps_on with two positive durations, arriving when the
    run-request queue is empty and can hold two messages, and followed by
    two turns of the runner, makes the pumps run one after the other:
    pump 1 on, a sleep of make_delay(d1) ticks, both off; then pump 2 on,
    a sleep of make_delay(d2) ticks, both off.  Nothing else is written to
    the outputs, and the queue is empty again. *)
Theorem run_now_runs_pumps_in_turn
  (recv_ret : Z) (members : list (string * cJSON)) (d1 d2 : Z) (w : world) :
  0 < portTICK_PERIOD_MS -> 2 <= PUMP_EV_NUM ->
  pumpEvents w = [] ->
  0 <= recv_ret ->
  get_member members "pump_1" = Some (cJSON_Number d1) ->
  get_member members "pump_2" = Some (cJSON_Number d2) ->
  0 < d1 -> 0 < d2 ->
  let w' := exec (run_actions [Post_pumps_on recv_ret (Some (cJSON_Object members));
                               Runner_turn; Runner_turn]) w in
  let poll := Task_delay (2000 / portTICK_PERIOD_MS) in
  trace w' =
    trace w ++
    [Send_pumpEvents (run_first d1) true; Send_pumpEvents (run_second d2) true] ++
    [poll; Receive_pumpEvents (Some (run_first d1))] ++ pump_one_cycle (make_delay d1) ++
    [poll; Receive_pumpEvents (Some (run_second d2))] ++ pump_two_cycle (make_delay d2) /\
  pumpEvents w' = [] /\ ledc w' 0 = 0 /\ ledc w' 1 = 0.
Proof.
  intros HP Hcap Hq Hret Hp1 Hp2 H1 H2 w' poll. subst w'. simpl.
  rewrite !exec_bind, !exec_ret.
  rewrite (pumps_on_handler_runs recv_ret members d1 d2 w Hret Hp1 Hp2 H1 H2).
  set (w1 := exec (runPumps d1 d2) w).
  assert (Hw1 : pumpEvents w1 = [run_first d1; run_second d2] /\
                trace w1 = trace w ++ [Send_pumpEvents (run_first d1) true;
                                       Send_pumpEvents (run_second d2) true]).
  { subst w1. rewrite runPumps_exec. cbn [pumpEvents trace].
    destruct (enqueue_with_room [run_first d1; run_second d2] (pumpEvents w))
      as [-> ->]; [rewrite Hq; simpl; lia|].
    rewrite Hq. split; reflexivity. }
  destruct Hw1 as [Hq1 Ht1].
  destruct (pumpRunner_turn_trace w1 _ _ Hq1) as (Hq2 & _ & _ & Ht2).
  set (w2 := exec pumpRunner_turn w1) in *.
  destruct (pumpRunner_turn_trace w2 _ _ Hq2) as (Hq3 & E0 & E1 & Ht3).
  split; [|repeat split; assumption].
  rewrite Ht3, Ht2, Ht1. unfold turn_events, run_message_events, drive_events,
    run_first, run_second, pump_one_cycle, pump_two_cycle. simpl.
  rewrite !(to_TickType_to_int _ (make_delay_bounds _ HP)).
  rewrite <- !app_assoc. reflexivity.
Qed.

(** X11.  A well-formed POST /add_cron, arriving when the schedule-update
    queue is empty, is parsed, queued and written into the slot under the
    cursor by the next callback; if that callback finds the entry's hour
    and minute on the clock, the entry fires at once, on whatever day:
    the -1 that parse_cron_data stores in last_ran_day is no day of the
    month.  The slot then holds the entry marked with the clock's day,
    minute and hour. *)
Theorem fresh_schedule_fires_at_first_match
  (recv_ret : Z) (members : list (string * cJSON)) (n1 n2 n3 n4 n5 : Z)
  (timeinfo : tm) (w : world) :
  world_ok w -> timerEvents w = [] -> 0 < PUMP_EV_NUM ->
  0 <= recv_ret ->
  get_member members "pump_num" = Some (cJSON_Number n1) ->
  get_member members "state" = Some (cJSON_Number n2) ->
  get_member members "pump_on_time" = Some (cJSON_Number n3) ->
  get_member members "hour" = Some (cJSON_Number n4) ->
  get_member members "minute" = Some (cJSON_Number n5) ->
  tm_hour timeinfo = n4 -> tm_min timeinfo = n5 -> 1 <= tm_mday timeinfo ->
  let entry := mk_cron n1 n2 n3 n4 n5 (-1) (-1) (-1) in
  let slot := Z.to_nat (next_cron_spec w) in
  let w1 := exec (add_cron_handler recv_ret (Some (cJSON_Object members))) w in
  let w' := exec (pumpTimerCb timeinfo) w1 in
  timerEvents w1 = [entry] /\
  from_slot slot (tick_requests timeinfo w1) = [(slot, entry)] /\
  cron_specs w' !! slot =
    Some (mk_cron n1 n2 n3 n4 n5 (tm_mday timeinfo) (tm_min timeinfo) (tm_hour timeinfo)) /\
  timerEvents w' = [] /\
  exists evs, trace w' = trace (exec cron_update w1) ++ evs /\
              In (cron_message entry) (pump_sends evs).
Proof.
  intros Hok Hq Hcap Hret F1 F2 F3 F4 F5 Hh Hm Hd entry slot w1 w'.
  assert (Hw1 : w1 = mk_world (cron_specs w) (next_cron_spec w) (pumpEvents w) [entry]
                              (ledc w) (trace w ++ [Send_timerEvents entry true])).
  { subst w1. rewrite (add_cron_handler_exec recv_ret _ w Hret).
    rewrite (parse_cron_data_valid members n1 n2 n3 n4 n5 F1 F2 F3 F4 F5).
    unfold enqueue, has_room. rewrite Hq. simpl. change (Z.of_nat 0) with 0.
    apply Z.ltb_lt in Hcap. rewrite Hcap. reflexivity. }
  assert (Hok1 : world_ok w1) by (rewrite Hw1; exact Hok).
  assert (Hq1 : timerEvents w1 = [entry]) by (rewrite Hw1; reflexivity).
  assert (Hu : cron_specs (exec cron_update w1) !! slot = Some entry).
  { rewrite (cron_update_pending w1 entry [] Hq1), Hw1. simpl.
    apply list_lookup_insert_eq. destruct Hok as [Hlen Hn]. subst slot.
    unfold MAX_CRON_SPECS in *. lia. }
  assert (Hdue : cron_due timeinfo entry = true).
  { apply cron_due_true. subst entry. simpl. repeat split; try congruence. lia. }
  pose proof (from_slot_due timeinfo _ 0 slot entry Hu Hdue) as Hfrom. simpl in Hfrom.
  split; [exact Hq1|]. split; [exact Hfrom|].
  subst w'. rewrite (pumpTimerCb_timerEvents timeinfo w1 Hok1), Hq1.
  rewrite (pumpTimerCb_exec timeinfo w1 Hok1). cbn [cron_specs trace].
  split; [|split; [reflexivity|]].
  - rewrite list_lookup_fmap, Hu. simpl.
    rewrite (scan_entry_due timeinfo entry Hdue). unfold mark_ran. simpl.
    rewrite Hh, Hm. reflexivity.
  - eexists. split; [reflexivity|]. rewrite pump_sends_send_events.
    apply in_map_iff. exists (slot, entry). split; [reflexivity|].
    assert (Hin : (slot, entry) ∈ from_slot slot (tick_requests timeinfo w1))
      by (unfold tick_requests, due_entries; rewrite Hfrom; apply list_elem_of_here).
    apply list_elem_of_filter in Hin as [_ Hin]. apply list_elem_of_In, Hin.
Qed.

(** ** The runner and its queue *)

Lemma pump_receives_run_message (m : event_t) : pump_receives (run_message_events m) = [].
Proof.
  unfold run_message_events, drive_events.
  destruct (pump_1 m =? PUMP_ON), (pump_2 m =? PUMP_ON); reflexivity.
Qed.

Lemma pumpRunner_turn_receives (w : world) :
  pump_receives (trace (exec pumpRunner_turn w)) =
  pump_receives (trace w) ++ take 1 (pumpEvents w).
Proof.
  destruct (pumpEvents w) as [|m rest] eqn:Hq.
  - rewrite (pumpRunner_turn_empty w Hq). cbn [trace].
    unfold pump_receives. rewrite omap_app. reflexivity.
  - destruct (pumpRunner_turn_trace w m rest Hq) as (_ & _ & _ & ->).
    unfold turn_events, pump_receives. rewrite !omap_app.
    fold (pump_receives (run_message_events m)).
    rewrite pump_receives_run_message. reflexivity.
Qed.

(** X12.  The runner serves the run-request queue strictly first in,
    first out, one message per turn: after n turns of the loop (no
    request arriving meanwhile) it has received exactly the first n
    messages that were waiting, in their order, and the rest is still in
    the queue; no message is skipped, served twice or reordered. *)
Theorem runner_serves_queue_in_order (n : nat) :
  forall w : world,
    let w' := exec (pumpRunnerTaskFunction n) w in
    pump_receives (trace w') = pump_receives (trace w) ++ take n (pumpEvents w) /\
    pumpEvents w' = drop n (pumpEvents w).
Proof.
  induction n as [|n IH]; intros w; simpl.
  - rewrite exec_ret, app_nil_r, drop_0. split; reflexivity.
  - rewrite exec_bind. destruct (IH (exec pumpRunner_turn w)) as [-> ->].
    rewrite pumpRunner_turn_receives.
    destruct (pumpRunner_turn_frame w) as (_ & _ & _ & ->).
    destruct (pumpEvents w) as [|m rest]; simpl.
    + rewrite take_nil, drop_nil, !app_nil_r. split; reflexivity.
    + rewrite take_0, <- app_assoc. split; reflexivity.
Qed.

(** ** The table after any number of submissions *)

Lemma submit_all_app (l : list (cron_t * tm)) (c : cron_t) (timeinfo : tm) :
  forall w : world,
    exec (submit_all (l ++ [(c, timeinfo)])) w =
    exec (submit_and_tick c timeinfo) (exec (submit_all l) w).
Proof.
  induction l as [|[c0 t0] l IH]; intros w; simpl.
  - rewrite !exec_bind, !exec_ret. reflexivity.
  - rewrite !exec_bind. apply IH.
Qed.

Lemma slots_differ (k n : nat) :
  (k < n)%nat -> (n <= k + 4)%nat -> (k mod 5 <> n mod 5)%nat.
Proof.
  intros Hlt Hle Heq.
  pose proof (Nat.div_mod_eq k 5). pose proof (Nat.div_mod_eq n 5).
  pose proof (Nat.mod_upper_bound k 5). pose proof (Nat.mod_upper_bound n 5). lia.
Qed.

(** X13.  However many schedule entries are submitted one per callback to
    a freshly started board, the cursor ends up at their number modulo 5
    and the table holds the last five of them, the k-th (counting from 0)
    in slot k mod 5 with its pump, state, on-time, hour and minute as
    submitted; older entries have been overwritten. *)
Theorem table_holds_last_five (l : list (cron_t * tm)) :
  0 < PUMP_EV_NUM ->
  let w := exec (submit_all l) world_init in
  next_cron_spec w = Z.of_nat (length l) mod 5 /\
  forall (k : nat) (e : cron_t) (t : tm),
    l !! k = Some (e, t) ->
    (length l <= k + 5)%nat ->
    exists c, cron_specs w !! (k mod 5)%nat = Some c /\ same_schedule e c.
Proof.
  intros Hcap.
  enough (H : world_ok (exec (submit_all l) world_init) /\
              timerEvents (exec (submit_all l) world_init) = [] /\
              next_cron_spec (exec (submit_all l) world_init)
                = Z.of_nat (length l) mod 5 /\
              forall (k : nat) (e : cron_t) (t : tm),
                l !! k = Some (e, t) -> (length l <= k + 5)%nat ->
                exists c, cron_specs (exec (submit_all l) world_init) !! (k mod 5)%nat
                          = Some c /\ same_schedule e c)
    by (destruct H as (_ & _ & H1 & H2); split; assumption).
  induction l as [|[e t] l IH] using rev_ind.
  - simpl. rewrite exec_ret. repeat split; try reflexivity;
      try (unfold MAX_CRON_SPECS; lia). intros k e t Hk. discriminate.
  - destruct IH as (Hok & Hq & Hnext & Hslots).
    rewrite submit_all_app.
    set (w := exec (submit_all l) world_init) in *.
    destruct (submit_and_tick_exec e t w Hok Hq Hcap) as (Hok' & Hq' & Hs' & Hn').
    assert (Hslot : Z.to_nat (next_cron_spec w) = (length l mod 5)%nat).
    { rewrite Hnext. change 5 with (Z.of_nat 5).
      rewrite <- Nat2Z.inj_mod, Nat2Z.id. reflexivity. }
    split; [exact Hok'|]. split; [exact Hq'|]. split.
    + rewrite Hn', Hnext, length_app. simpl. unfold MAX_CRON_SPECS.
      rewrite Z.rem_mod_nonneg by (pose proof (Z.mod_pos_bound (Z.of_nat (length l)) 5); lia).
      rewrite Zplus_mod_idemp_l. f_equal. lia.
    + intros k e' t' Hk Hlast. rewrite length_app in Hlast. simpl in Hlast.
      rewrite Hs', Hslot, list_lookup_fmap.
      destruct (Nat.lt_ge_cases k (length l)) as [Hlt|Hge].
      * rewrite lookup_app_l in Hk by exact Hlt.
        destruct (Hslots k e' t' Hk) as (c & Hc & Hsame); [lia|].
        rewrite list_lookup_insert_ne by (apply not_eq_sym, slots_differ; lia).
        rewrite Hc. simpl. eexists. split; [reflexivity|].
        exact (same_schedule_trans _ _ _ Hsame (same_schedule_scan t c)).
      * assert (k = length l).
        { apply lookup_lt_Some in Hk. rewrite length_app in Hk. simpl in Hk. lia. }
        subst k. rewrite list_lookup_middle in Hk by reflexivity.
        injection Hk as <- <-.
        rewrite list_lookup_insert_eq.
        -- simpl. eexists. split; [reflexivity|apply same_schedule_scan].
        -- destruct Hok as [Hlen _]. rewrite Hlen. unfold MAX_CRON_SPECS.
           pose proof (Nat.mod_upper_bound (length l) 5). lia.
Qed.

(** ** The snapshot of the table *)

Lemma cJSON_CreateNumber_int (z : Z) : int_range z -> cJSON_CreateNumber z = cJSON_Number z.
Proof.
  unfold int_range, cJSON_CreateNumber. intros [Hlo Hhi].
  destruct (Z.geb_spec z INT_MAX) as [Hge|Hlt]; [f_equal; lia|].
  destruct (Z.leb_spec z INT_MIN) as [Hle|Hgt]; [f_equal; lia|reflexivity].
Qed.

Lemma serialize_cron_data_ints (c : cron_t) :
  cron_ints c ->
  serialize_cron_data c =
  cJSON_Object [("pump_num", cJSON_Number (pump_num c));
                ("state", cJSON_Number (state c));
                ("hour", cJSON_Number (hour c));
                ("minute", cJSON_Number (minute c));
                ("pump_on_time", cJSON_Number (pump_on_time c));
                ("last_ran_day", cJSON_Number (last_ran_day c));
                ("last_ran_hour", cJSON_Number (last_ran_hour c));
                ("last_ran_minute", cJSON_Number (last_ran_minute c))]%string.
Proof.
  intros (H1 & H2 & H3 & H4 & H5 & H6 & H7 & H8).
  cbv [serialize_cron_data cJSON_AddNumberToObject cJSON_CreateObject app].
  rewrite !cJSON_CreateNumber_int by assumption. reflexivity.
Qed.

(** X14.  What serialize_cron_data writes, parse_cron_data reads back:
    the object built for an entry carries each of the eight fields under
    its name, and parsing that object -- as when a schedule shown by
    GET /cron_data is posted again to /add_cron -- gives the entry with
    the same pump, state, on-time, hour and minute and with its last-ran
    fields reset to -1. *)
Theorem parse_after_serialize (c : cron_t) :
  cron_ints c ->
  parse_cron_data (serialize_cron_data c) =
    mk_cron (pump_num c) (state c) (pump_on_time c) (hour c) (minute c) (-1) (-1) (-1) /\
  same_schedule c (parse_cron_data (serialize_cron_data c)) /\
  (let item := cJSON_GetObjectItemCaseSensitive (Some (serialize_cron_data c)) in
   item "pump_num"%string = Some (cJSON_Number (pump_num c)) /\
   item "state"%string = Some (cJSON_Number (state c)) /\
   item "hour"%string = Some (cJSON_Number (hour c)) /\
   item "minute"%string = Some (cJSON_Number (minute c)) /\
   item "pump_on_time"%string = Some (cJSON_Number (pump_on_time c)) /\
   item "last_ran_day"%string = Some (cJSON_Number (last_ran_day c)) /\
   item "last_ran_hour"%string = Some (cJSON_Number (last_ran_hour c)) /\
   item "last_ran_minute"%string = Some (cJSON_Number (last_ran_minute c))).
Proof.
  intros Hints. rewrite (serialize_cron_data_ints c Hints).
  split; [vm_compute; reflexivity|]. split; [vm_compute; repeat split|].
  vm_compute. repeat split.
Qed.

Lemma serialize_loop_spec (suf : list cron_t) :
  forall (pre : list cron_t) (items : list cJSON),
    serialize_loop (pre ++ suf) (Z.of_nat (length pre)) (length suf) (cJSON_Array items) =
    cJSON_Array (items ++ map serialize_cron_data suf).
Proof.
  induction suf as [|c suf IH]; intros pre items; simpl.
  - rewrite app_nil_r. reflexivity.
  - rewrite Nat2Z.id, app_nth2, Nat.sub_diag by lia. simpl.
    replace (Z.of_nat (length pre) + 1) with (Z.of_nat (length (pre ++ [c])))
      by (rewrite length_app; simpl; lia).
    replace (pre ++ c :: suf) with ((pre ++ [c]) ++ suf) by (rewrite <- app_assoc; reflexivity).
    rewrite IH, <- app_assoc. reflexivity.
Qed.

(** X15.  GET /cron_data shows the whole table and changes nothing: in
    every state reached from start-up the tree it prints is an array of
    exactly five objects, the i-th being the serialisation of slot i --
    unused slots included -- and the state after the handler is the state
    before it. *)
Theorem cron_data_is_a_snapshot (l : list action) :
  let w := exec (run_actions l) world_init in
  eval get_cron_data_handler w =
    (cJSON_Array (map serialize_cron_data (cron_specs w)), ESP_OK) /\
  length (map serialize_cron_data (cron_specs w)) = 5%nat /\
  exec get_cron_data_handler w = w.
Proof.
  intros w.
  assert (Hok : world_ok w) by exact (run_actions_ok l world_init world_init_ok).
  destruct Hok as [Hlen _]. split; [|split; [rewrite length_map; exact Hlen|reflexivity]].
  unfold get_cron_data_handler, eval, serialize_cron_specs. cbn [fst].
  f_equal. rewrite <- Hlen.
  exact (serialize_loop_spec (cron_specs w) [] []).
Qed.

(** ** Waiting for the time at start-up *)

Lemma eval_bind {A B} (c : M A) (k : A -> M B) (w : world) :
  eval (bind c k) w = eval (k (eval c w)) (exec c w).
Proof. unfold exec, eval, bind. destruct (c w); reflexivity. Qed.

Lemma obtain_time_wait_spec (status_reset : nat -> bool) (fuel : nat) :
  forall (retry : Z) (w : world),
    0 <= retry <= 14 -> 15 - retry <= Z.of_nat fuel ->
    exists (r : Z) (sleeps : nat),
      eval (obtain_time_wait status_reset (Z.to_nat retry) retry fuel) w = Some r /\
      trace (exec (obtain_time_wait status_reset (Z.to_nat retry) retry fuel) w) =
        trace w ++ replicate sleeps (Task_delay (2000 / portTICK_PERIOD_MS)) /\
      retry <= r <= 15 /\
      Z.of_nat sleeps = Z.min r 14 - retry /\
      (forall j : Z, retry <= j < r -> status_reset (Z.to_nat j) = true) /\
      (r < 15 -> status_reset (Z.to_nat r) = false).
Proof.
  induction fuel as [|fuel IH]; intros retry w Hr Hfuel; [lia|]. simpl.
  destruct (status_reset (Z.to_nat retry)) eqn:Hs.
  - unfold retry_count. destruct (Z.ltb_spec (retry + 1) 15) as [Hlt|Hge].
    + rewrite eval_bind, exec_bind.
      replace (S (Z.to_nat retry)) with (Z.to_nat (retry + 1)) by lia.
      set (w1 := exec (vTaskDelay (2000 / portTICK_PERIOD_MS)) w).
      destruct (IH (retry + 1) w1) as (r & k & He & Ht & Hb & Hk & Hall & Hlast);
        [lia|lia|].
      exists r, (S k). rewrite He, Ht. subst w1. simpl.
      rewrite <- app_assoc. repeat split; try lia; try assumption.
      intros j Hj. destruct (Z.eq_dec j retry) as [->|Hne]; [exact Hs|].
      apply Hall. lia.
    + exists (retry + 1), 0%nat. simpl. rewrite app_nil_r.
      repeat split; try lia.
      intros j Hj. replace j with retry by lia. exact Hs.
  - exists retry, 0%nat. simpl. rewrite app_nil_r.
    repeat split; try lia. intros _. exact Hs.
Qed.

(** X16.  The wait for the first time synchronisation in obtain_time
    always ends: whatever sntp_get_sync_status answers, the loop is left
    after at most 15 tests of its condition and at most 14 sleeps of
    2000 ms.  It stops at the first test that finds the status no longer
    RESET, having slept once for every test before; if the status stays
    RESET it gives up with retry = 15 after 14 sleeps. *)
Theorem obtain_time_waits_at_most_14_times
  (status_reset : nat -> bool) (fuel : nat) (w : world) :
  (15 <= fuel)%nat ->
  exists (r : Z) (sleeps : nat),
    eval (obtain_time_wait status_reset 0 0 fuel) w = Some r /\
    trace (exec (obtain_time_wait status_reset 0 0 fuel) w) =
      trace w ++ replicate sleeps (Task_delay (2000 / portTICK_PERIOD_MS)) /\
    0 <= r <= 15 /\ (sleeps <= 14)%nat /\ Z.of_nat sleeps = Z.min r 14 /\
    (forall j : nat, (Z.of_nat j < r) -> status_reset j = true) /\
    (r < 15 -> status_reset (Z.to_nat r) = false).
Proof.
  intros Hfuel.
  destruct (obtain_time_wait_spec status_reset fuel 0 w) as
    (r & k & He & Ht & Hb & Hk & Hall & Hlast); [lia|lia|].
  exists r, k. change (Z.to_nat 0) with 0%nat in *.
  repeat split; try assumption; try lia.
  intros j Hj. rewrite <- (Nat2Z.id j). apply Hall. lia.
Qed.

(** ** Answers, idle outputs, pending updates *)

(** X19.  The two POST handlers report nothing but a failed receive: they
    return ESP_FAIL, and leave the state alone, exactly when
    httpd_req_recv failed; in every other case they return ESP_OK --
    whether the body was acted on, was turned down or did not even parse. *)
Theorem handlers_report_receive_errors_only
  (recv_ret : Z) (json : option cJSON) (w : world) :
  eval (pumps_on_handler recv_ret json) w = (if recv_ret <? 0 then ESP_FAIL else ESP_OK) /\
  eval (add_cron_handler recv_ret json) w = (if recv_ret <? 0 then ESP_FAIL else ESP_OK) /\
  (recv_ret < 0 ->
   exec (pumps_on_handler recv_ret json) w = w /\
   exec (add_cron_handler recv_ret json) w = w).
Proof.
  unfold pumps_on_handler, add_cron_handler.
  destruct (Z.ltb_spec recv_ret 0) as [Hneg|Hpos].
  - repeat split.
  - split; [|split; [|lia]].
    + unfold eval, bind, ret. destruct (_ w); reflexivity.
    + unfold eval, bind, ret. destruct (_ w); reflexivity.
Qed.

(** X20.  Between the turns of the pump runner both pumps are off: in
    every state reached from start-up by timer callbacks, HTTP requests
    and completed runner turns, the duty on both channels is 0.  A pump
    runs only while the runner is inside a turn. *)
Theorem pumps_off_between_turns (l : list action) :
  let w := exec (run_actions l) world_init in
  ledc w 0 = 0 /\ ledc w 1 = 0.
Proof.
  intros w. destruct (run_actions_idle l world_init world_init_idle) as (_ & H0 & H1 & _).
  split; assumption.
Qed.

(** X21.  Pending schedule updates are applied one per callback, oldest
    first: after a run of callbacks (no submission arriving meanwhile) as
    many entries have left the queue as there were callbacks, the rest is
    still waiting in its order, and the cursor has advanced by the number
    of entries applied, modulo 5. *)
Theorem updates_drain_one_per_tick (times : list tm) :
  forall w : world,
    world_ok w ->
    let w' := exec (run_ticks times) w in
    let applied := Nat.min (length times) (length (timerEvents w)) in
    timerEvents w' = drop (length times) (timerEvents w) /\
    next_cron_spec w' = (next_cron_spec w + Z.of_nat applied) mod 5.
Proof.
  induction times as [|t times IH]; intros w Hok; simpl.
  - rewrite exec_ret, drop_0, Z.add_0_r. split; [reflexivity|].
    destruct Hok as [_ Hn]. unfold MAX_CRON_SPECS in Hn.
    rewrite Z.mod_small by lia. reflexivity.
  - rewrite exec_bind.
    destruct (IH (exec (pumpTimerCb t) w) (pumpTimerCb_ok t w Hok)) as [-> ->].
    rewrite (pumpTimerCb_timerEvents t w Hok), (pumpTimerCb_exec t w Hok).
    cbn [next_cron_spec].
    destruct (timerEvents w) as [|c rest] eqn:Hq.
    + rewrite (cron_update_empty w Hq). simpl. rewrite drop_nil, Nat.min_0_r.
      split; reflexivity.
    + rewrite (cron_update_pending w c rest Hq). simpl. split; [reflexivity|].
      unfold MAX_CRON_SPECS. destruct Hok as [_ Hn]. unfold MAX_CRON_SPECS in Hn.
      rewrite Z.rem_mod_nonneg by lia.
      rewrite Zplus_mod_idemp_l. f_equal. lia.
Qed.

End More.

(** ** Reconnecting to the access point *)

Section WifiFacts.
Variable EXAMPLE_ESP_MAXIMUM_RETRY : Z.

Lemma event_handler_keeps (event : wifi_event) (st : wifi_state) :
  0 <= s_retry_num st <= EXAMPLE_ESP_MAXIMUM_RETRY ->
  let st' := event_handler EXAMPLE_ESP_MAXIMUM_RETRY event st in
  0 <= s_retry_num st' <= EXAMPLE_ESP_MAXIMUM_RETRY /\
  (WIFI_CONNECTED_BIT st = true -> WIFI_CONNECTED_BIT st' = true) /\
  (WIFI_FAIL_BIT st = true -> WIFI_FAIL_BIT st' = true) /\
  (esp_wifi_connect_calls st <= esp_wifi_connect_calls st')%nat /\
  (WIFI_FAIL_BIT st = false -> WIFI_FAIL_BIT st' = true ->
   event = WIFI_EVENT_STA_DISCONNECTED /\ s_retry_num st = EXAMPLE_ESP_MAXIMUM_RETRY).
Proof.
  intros Hr. unfold event_handler. destruct event; simpl.
  - repeat split; try lia; auto; congruence.
  - destruct (Z.ltb_spec (s_retry_num st) EXAMPLE_ESP_MAXIMUM_RETRY); simpl;
      repeat split; try lia; auto; congruence.
  - repeat split; try lia; auto; congruence.
  - repeat split; try lia; auto; congruence.
Qed.

(** X17.  Through any sequence of WiFi events after start-up the retry
    counter stays between 0 and EXAMPLE_ESP_MAXIMUM_RETRY, the number of
    connection attempts never goes down, the handler never clears a bit
    of the event group that is set, and the FAIL bit can only be set by a
    disconnect. *)
Theorem wifi_retries_stay_bounded (events : list wifi_event) :
  forall st : wifi_state,
    0 <= s_retry_num st <= EXAMPLE_ESP_MAXIMUM_RETRY ->
    let st' := handle_events EXAMPLE_ESP_MAXIMUM_RETRY events st in
    0 <= s_retry_num st' <= EXAMPLE_ESP_MAXIMUM_RETRY /\
    (WIFI_CONNECTED_BIT st = true -> WIFI_CONNECTED_BIT st' = true) /\
    (WIFI_FAIL_BIT st = true -> WIFI_FAIL_BIT st' = true) /\
    (esp_wifi_connect_calls st <= esp_wifi_connect_calls st')%nat /\
    (WIFI_FAIL_BIT st = false -> WIFI_FAIL_BIT st' = true ->
     In WIFI_EVENT_STA_DISCONNECTED events).
Proof.
  unfold handle_events.
  induction events as [|event events IH]; intros st Hr; simpl.
  - repeat split; try lia; auto; congruence.
  - pose proof (event_handler_keeps event st Hr) as Hstep. cbv zeta in Hstep.
    set (mid := event_handler EXAMPLE_ESP_MAXIMUM_RETRY event st) in *.
    destruct Hstep as (Hr1 & Hc1 & Hf1 & Hn1 & Hset1).
    destruct (IH mid Hr1) as (Hr2 & Hc2 & Hf2 & Hn2 & Hset2).
    split; [exact Hr2|]. split; [auto|]. split; [auto|]. split; [lia|].
    intros Hf Hf'.
    destruct (WIFI_FAIL_BIT mid) eqn:Hmid.
    + left. exact (proj1 (Hset1 Hf eq_refl)).
    + right. exact (Hset2 eq_refl Hf').
Qed.

Lemma disconnects_from (n : nat) :
  forall st : wifi_state,
    0 <= s_retry_num st <= EXAMPLE_ESP_MAXIMUM_RETRY ->
    let st' := handle_events EXAMPLE_ESP_MAXIMUM_RETRY
                 (replicate n WIFI_EVENT_STA_DISCONNECTED) st in
    let total := s_retry_num st + Z.of_nat n in
    s_retry_num st' = Z.min total EXAMPLE_ESP_MAXIMUM_RETRY /\
    Z.of_nat (esp_wifi_connect_calls st') =
      Z.of_nat (esp_wifi_connect_calls st)
      + (Z.min total EXAMPLE_ESP_MAXIMUM_RETRY - s_retry_num st) /\
    WIFI_FAIL_BIT st' = (WIFI_FAIL_BIT st || (EXAMPLE_ESP_MAXIMUM_RETRY <? total)) /\
    WIFI_CONNECTED_BIT st' = WIFI_CONNECTED_BIT st.
Proof.
  unfold handle_events.
  induction n as [|n IH]; intros st Hr.
  - cbn [replicate fold_left]. cbv zeta.
    rewrite Z.add_0_r, Z.min_l by lia.
    replace (EXAMPLE_ESP_MAXIMUM_RETRY <? s_retry_num st) with false
      by (symmetry; apply Z.ltb_ge; lia).
    rewrite orb_false_r. repeat split; lia.
  - cbn [replicate fold_left]. cbv zeta. rewrite Nat2Z.inj_succ.
    set (mid := event_handler EXAMPLE_ESP_MAXIMUM_RETRY WIFI_EVENT_STA_DISCONNECTED st).
    assert (Hmid : mid =
              if s_retry_num st <? EXAMPLE_ESP_MAXIMUM_RETRY
              then mk_wifi (s_retry_num st + 1) (WIFI_CONNECTED_BIT st) (WIFI_FAIL_BIT st)
                           (S (esp_wifi_connect_calls st))
              else mk_wifi (s_retry_num st) (WIFI_CONNECTED_BIT st) true
                           (esp_wifi_connect_calls st)) by reflexivity.
    destruct (Z.ltb_spec (s_retry_num st) EXAMPLE_ESP_MAXIMUM_RETRY) as [Hlt|Hge].
    + destruct (IH mid) as (H1 & H2 & H3 & H4); [rewrite Hmid; cbn [s_retry_num]; lia|].
      rewrite H1, H2, H3, H4, Hmid.
      cbn [s_retry_num WIFI_CONNECTED_BIT WIFI_FAIL_BIT esp_wifi_connect_calls].
      replace (s_retry_num st + Z.succ (Z.of_nat n))
        with (s_retry_num st + 1 + Z.of_nat n) by lia.
      repeat split; lia.
    + destruct (IH mid) as (H1 & H2 & H3 & H4); [rewrite Hmid; cbn [s_retry_num]; lia|].
      rewrite H1, H2, H3, H4, Hmid.
      cbn [s_retry_num WIFI_CONNECTED_BIT WIFI_FAIL_BIT esp_wifi_connect_calls].
      rewrite !Z.min_r by lia.
      replace (EXAMPLE_ESP_MAXIMUM_RETRY <? s_retry_num st + Z.succ (Z.of_nat n))
        with true by (symmetry; apply Z.ltb_lt; lia).
      rewrite orb_true_r. repeat split; lia.
Qed.

(** X18.  After a connection (retry counter 0) the handler answers n
    disconnects in a row with min(n, EXAMPLE_ESP_MAXIMUM_RETRY) calls of
    esp_wifi_connect; it raises the FAIL bit exactly when n exceeds the
    limit, and from then on further disconnects change nothing. *)
Theorem wifi_gives_up_after_limit (n : nat) (st : wifi_state) :
  0 <= EXAMPLE_ESP_MAXIMUM_RETRY ->
  s_retry_num st = 0 ->
  let st' := handle_events EXAMPLE_ESP_MAXIMUM_RETRY
               (replicate n WIFI_EVENT_STA_DISCONNECTED) st in
  s_retry_num st' = Z.min (Z.of_nat n) EXAMPLE_ESP_MAXIMUM_RETRY /\
  Z.of_nat (esp_wifi_connect_calls st') =
    Z.of_nat (esp_wifi_connect_calls st) + Z.min (Z.of_nat n) EXAMPLE_ESP_MAXIMUM_RETRY /\
  WIFI_FAIL_BIT st' = (WIFI_FAIL_BIT st || (EXAMPLE_ESP_MAXIMUM_RETRY <? Z.of_nat n)) /\
  (EXAMPLE_ESP_MAXIMUM_RETRY < Z.of_nat n ->
   event_handler EXAMPLE_ESP_MAXIMUM_RETRY WIFI_EVENT_STA_DISCONNECTED st' = st').
Proof.
  intros Hmax H0 st'.
  destruct (disconnects_from n st) as (H1 & H2 & H3 & H4); [lia|].
  fold st' in H1, H2, H3, H4. rewrite H0 in H1, H2, H3. rewrite Z.add_0_l in H1, H2, H3.
  rewrite Z.sub_0_r in H2. split; [exact H1|]. split; [exact H2|]. split; [exact H3|].
  intros Hover. unfold event_handler.
  rewrite Z.min_r in H1 by lia. rewrite H1, Z.ltb_irrefl.
  assert (Hf : WIFI_FAIL_BIT st' = true).
  { rewrite H3. apply orb_true_iff. right. apply Z.ltb_lt. exact Hover. }
  rewrite <- Hf, <- H1. destruct st'; reflexivity.
Qed.

End WifiFacts.

(** ** These theorems at work *)

Section BoardAgain.
#[local] Existing Instance board.

Lemma table_in_shape_along_runs_witness :
  let w := world_with [] [entry_0730] in
  let l := [Timer_callback jan15_0730; Runner_turn; Post_add_cron 40 (Some (cron_body 1 45 19 1))] in
  world_ok w /\
  length (cron_specs (exec (run_actions l) w)) = 5%nat /\
  0 <= next_cron_spec (exec (run_actions l) w) < 5.
Proof.
  intros w l.
  assert (H : world_ok w) by (unfold world_ok, MAX_CRON_SPECS; simpl; lia).
  exact (conj H (proj2 table_in_shape_along_runs l w H)).
Defined.

Lemma runPumps_takes_free_places_witness :
  let w := world_with (replicate 4 event_zero) [] in
  PUMP_EV_NUM - Z.of_nat (length (pumpEvents w)) = 1 /\
  pumpEvents (exec (runPumps 30 45) w) = pumpEvents w ++ [run_first 30].
Proof.
  intros w.
  assert (H : PUMP_EV_NUM - Z.of_nat (length (pumpEvents w)) = 1) by reflexivity.
  exact (conj H (proj1 (proj2 (runPumps_takes_free_places 30 45 w)) H)).
Defined.


Lemma scan_keeps_schedules_witness :
  let w := world_with [] [entry_0730] in
  world_ok w /\
  Forall2 same_schedule (cron_specs (exec cron_update w))
                        (cron_specs (exec (pumpTimerCb jan15_0730) w)).
Proof.
  intros w.
  assert (H : world_ok w) by (unfold world_ok, MAX_CRON_SPECS; simpl; lia).
  exact (conj H (proj1 (scan_keeps_schedules w jan15_0730 H))).
Defined.

Lemma runner_holds_for_make_delay_witness :
  0 < portTICK_PERIOD_MS /\
  trace (exec (run_message (run_first 60)) world_init) =
    trace world_init ++ pump_one_cycle (make_delay 60).
Proof.
  assert (H : 0 < portTICK_PERIOD_MS) by (simpl; lia).
  exact (conj H (proj1 (runner_holds_for_make_delay 60 world_init H))).
Defined.

Lemma make_delay_of_negative_is_long_witness :
  0 < portTICK_PERIOD_MS /\ -2147483 <= -1 < 0 /\ 0 <= 3600 <= 2147483 /\
  make_delay 3600 <= make_delay (-1).
Proof.
  assert (H : 0 < portTICK_PERIOD_MS) by (simpl; lia).
  assert (H1 : -2147483 <= -1 < 0) by lia.
  assert (H2 : 0 <= 3600 <= 2147483) by lia.
  exact (conj H (conj H1 (conj H2
           (proj2 (proj2 (make_delay_of_negative_is_long H)) (-1) 3600 H1 H2)))).
Defined.

Lemma empty_table_fires_at_midnight_witness :
  cron_specs world_init = cron_specs world_init /\
  0 <= next_cron_spec world_init < 5 /\
  timerEvents world_init = [] /\
  tm_hour jan15_midnight = 0 /\ tm_min jan15_midnight = 0 /\ tm_mday jan15_midnight <> 0 /\
  cron_specs (exec (pumpTimerCb jan15_midnight) world_init) =
    replicate 5 (mk_cron 0 0 0 0 0 (tm_mday jan15_midnight) 0 0).
Proof.
  assert (H1 : cron_specs world_init = cron_specs world_init) by reflexivity.
  assert (H2 : 0 <= next_cron_spec world_init < 5) by (simpl; lia).
  assert (H3 : timerEvents world_init = []) by reflexivity.
  assert (H4 : tm_hour jan15_midnight = 0) by reflexivity.
  assert (H5 : tm_min jan15_midnight = 0) by reflexivity.
  assert (H6 : tm_mday jan15_midnight <> 0) by (simpl; lia).
  exact (conj H1 (conj H2 (conj H3 (conj H4 (conj H5 (conj H6
           (proj2 (proj1 (empty_table_fires_at_midnight world_init jan15_midnight
                            H1 H2 H3) H4 H5 H6)))))))).
Defined.

Lemma schedule_actuation_by_pump_num_witness :
  let c := mk_cron 2 1 60 7 30 (-1) (-1) (-1) in
  0 < portTICK_PERIOD_MS /\ pump_num c <> 0 /\ pump_num c <> 1 /\
  trace (exec (run_message (cron_message c)) world_init) =
    trace world_init ++
    [Task_delay (make_delay (pump_on_time c)); Ledc_duty 0 0; Ledc_duty 1 0].
Proof.
  intros c.
  assert (H : 0 < portTICK_PERIOD_MS) by (simpl; lia).
  assert (H0 : pump_num c <> 0) by (simpl; lia).
  assert (H1 : pump_num c <> 1) by (simpl; lia).
  exact (conj H (conj H0 (conj H1
           (proj2 (proj2 (schedule_actuation_by_pump_num c world_init H)) H0 H1)))).
Defined.

Lemma run_now_runs_pumps_in_turn_witness :
  let members := [("pump_1", cJSON_Number 30); ("pump_2", cJSON_Number 45)]%string in
  let w' := exec (run_actions [Post_pumps_on 27 (Some (cJSON_Object members));
                               Runner_turn; Runner_turn]) world_init in
  0 < portTICK_PERIOD_MS /\ 2 <= PUMP_EV_NUM /\ pumpEvents world_init = [] /\
  0 <= 27 /\
  get_member members "pump_1" = Some (cJSON_Number 30) /\
  get_member members "pump_2" = Some (cJSON_Number 45) /\
  0 < 30 /\ 0 < 45 /\
  pumpEvents w' = [] /\ ledc w' 0 = 0 /\ ledc w' 1 = 0.
Proof.
  intros members w'.
  assert (H1 : 0 < portTICK_PERIOD_MS) by (simpl; lia).
  assert (H2 : 2 <= PUMP_EV_NUM) by (simpl; lia).
  assert (H3 : pumpEvents world_init = []) by reflexivity.
  assert (H4 : 0 <= 27) by lia.
  assert (H5 : get_member members "pump_1" = Some (cJSON_Number 30)) by reflexivity.
  assert (H6 : get_member members "pump_2" = Some (cJSON_Number 45)) by reflexivity.
  assert (H7 : 0 < 30) by lia.
  assert (H8 : 0 < 45) by lia.
  do 8 (split; [assumption|]).
  exact (proj2 (run_now_runs_pumps_in_turn 27 members 30 45 world_init
                  H1 H2 H3 H4 H5 H6 H7 H8)).
Defined.

Lemma fresh_schedule_fires_at_first_match_witness :
  let members := [("pump_num", cJSON_Number 0); ("state", cJSON_Number 1);
                  ("pump_on_time", cJSON_Number 60); ("hour", cJSON_Number 7);
                  ("minute", cJSON_Number 30)]%string in
  let w1 := exec (add_cron_handler 40 (Some (cJSON_Object members))) world_init in
  world_ok world_init /\ timerEvents world_init = [] /\ 0 < PUMP_EV_NUM /\ 0 <= 40 /\
  get_member members "pump_num" = Some (cJSON_Number 0) /\
  get_member members "state" = Some (cJSON_Number 1) /\
  get_member members "pump_on_time" = Some (cJSON_Number 60) /\
  get_member members "hour" = Some (cJSON_Number 7) /\
  get_member members "minute" = Some (cJSON_Number 30) /\
  tm_hour jan15_0730 = 7 /\ tm_min jan15_0730 = 30 /\ 1 <= tm_mday jan15_0730 /\
  cron_specs (exec (pumpTimerCb jan15_0730) w1) !! Z.to_nat (next_cron_spec world_init) =
    Some (mk_cron 0 1 60 7 30 (tm_mday jan15_0730) (tm_min jan15_0730)
                  (tm_hour jan15_0730)).
Proof.
  intros members w1.
  assert (H1 : world_ok world_init) by (unfold world_ok, MAX_CRON_SPECS; simpl; lia).
  assert (H2 : timerEvents world_init = []) by reflexivity.
  assert (H3 : 0 < PUMP_EV_NUM) by (simpl; lia).
  assert (H4 : 0 <= 40) by lia.
  assert (F1 : get_member members "pump_num" = Some (cJSON_Number 0)) by reflexivity.
  assert (F2 : get_member members "state" = Some (cJSON_Number 1)) by reflexivity.
  assert (F3 : get_member members "pump_on_time" = Some (cJSON_Number 60)) by reflexivity.
  assert (F4 : get_member members "hour" = Some (cJSON_Number 7)) by reflexivity.
  assert (F5 : get_member members "minute" = Some (cJSON_Number 30)) by reflexivity.
  assert (T1 : tm_hour jan15_0730 = 7) by reflexivity.
  assert (T2 : tm_min jan15_0730 = 30) by reflexivity.
  assert (T3 : 1 <= tm_mday jan15_0730) by (simpl; lia).
  do 12 (split; [assumption|]).
  exact (proj1 (proj2 (proj2 (fresh_schedule_fires_at_first_match 40 members 0 1 60 7 30
                                jan15_0730 world_init H1 H2 H3 H4 F1 F2 F3 F4 F5 T1 T2 T3)))).
Defined.

Lemma table_holds_last_five_witness :
  let l := map (fun h => (mk_cron 0 1 60 h 0 (-1) (-1) (-1), jan15_noon))
               [6; 7; 8; 9; 10; 11; 12] in
  let e := mk_cron 0 1 60 11 0 (-1) (-1) (-1) in
  0 < PUMP_EV_NUM /\ l !! 5%nat = Some (e, jan15_noon) /\ (length l <= 5 + 5)%nat /\
  exists c, cron_specs (exec (submit_all l) world_init) !! (5 mod 5)%nat = Some c /\
            same_schedule e c.
Proof.
  intros l e.
  assert (H1 : 0 < PUMP_EV_NUM) by (simpl; lia).
  assert (H2 : l !! 5%nat = Some (e, jan15_noon)) by reflexivity.
  assert (H3 : (length l <= 5 + 5)%nat) by (simpl; lia).
  exact (conj H1 (conj H2 (conj H3
           (proj2 (table_holds_last_five l H1) 5%nat e jan15_noon H2 H3)))).
Defined.

Lemma parse_after_serialize_witness :
  let c := mk_cron 0 1 60 7 30 15 30 7 in
  cron_ints c /\
  parse_cron_data (serialize_cron_data c) = mk_cron 0 1 60 7 30 (-1) (-1) (-1).
Proof.
  intros c.
  assert (H : cron_ints c) by (unfold cron_ints, int_range, INT_MIN, INT_MAX; simpl; lia).
  exact (conj H (proj1 (parse_after_serialize c H))).
Defined.

Lemma obtain_time_waits_at_most_14_times_witness :
  (15 <= 20)%nat /\
  exists (r : Z) (sleeps : nat),
    eval (obtain_time_wait (fun _ => true) 0 0 20) world_init = Some r /\
    trace (exec (obtain_time_wait (fun _ => true) 0 0 20) world_init) =
      trace world_init ++ replicate sleeps (Task_delay (2000 / portTICK_PERIOD_MS)) /\
    0 <= r <= 15 /\ (sleeps <= 14)%nat.
Proof.
  assert (H : (15 <= 20)%nat) by lia.
  destruct (obtain_time_waits_at_most_14_times (fun _ => true) 20 world_init H)
    as (r & k & H1 & H2 & H3 & H4 & _).
  exact (conj H (ex_intro _ r (ex_intro _ k (conj H1 (conj H2 (conj H3 H4)))))).
Defined.

Lemma wifi_retries_stay_bounded_witness :
  let events := [WIFI_EVENT_STA_START; WIFI_EVENT_STA_DISCONNECTED;
                 WIFI_EVENT_STA_DISCONNECTED; IP_EVENT_STA_GOT_IP;
                 WIFI_EVENT_STA_DISCONNECTED] in
  0 <= s_retry_num wifi_start <= 5 /\
  0 <= s_retry_num (handle_events 5 events wifi_start) <= 5.
Proof.
  intros events.
  assert (H : 0 <= s_retry_num wifi_start <= 5) by (simpl; lia).
  exact (conj H (proj1 (wifi_retries_stay_bounded 5 events wifi_start H))).
Defined.

Lemma wifi_gives_up_after_limit_witness :
  0 <= 5 /\ s_retry_num wifi_start = 0 /\
  s_retry_num (handle_events 5 (replicate 7 WIFI_EVENT_STA_DISCONNECTED) wifi_start)
    = Z.min (Z.of_nat 7) 5.
Proof.
  assert (H : 0 <= 5) by lia.
  assert (H0 : s_retry_num wifi_start = 0) by reflexivity.
  exact (conj H (conj H0 (proj1 (wifi_gives_up_after_limit 5 7 wifi_start H H0)))).
Defined.

Lemma handlers_report_receive_errors_only_witness :
  -1 < 0 /\
  exec (pumps_on_handler (-1) (Some (run_body 30 45))) world_init = world_init /\
  exec (add_cron_handler (-1) (Some (run_body 30 45))) world_init = world_init.
Proof.
  assert (H : -1 < 0) by lia.
  exact (conj H (proj2 (proj2 (handlers_report_receive_errors_only (-1)
                                 (Some (run_body 30 45)) world_init)) H)).
Defined.

Lemma updates_drain_one_per_tick_witness :
  let w := world_with [] [entry_0730; entry_1901; entry_0730] in
  let times := [jan15_noon; jan15_noon] in
  world_ok w /\
  timerEvents (exec (run_ticks times) w) = drop (length times) (timerEvents w).
Proof.
  intros w times.
  assert (H : world_ok w) by (unfold world_ok, MAX_CRON_SPECS; simpl; lia).
  exact (conj H (proj1 (updates_drain_one_per_tick times w H))).
Defined.

End BoardAgain.
